(** * Rucio persistence slice: value codecs of [rucio.db.sqla.types] and
      the distance listing of [rucio.core.distance]

    A shallow embedding of the five SQLAlchemy type decorators of
    [lib/rucio/db/sqla/types.py] (GUID, BooleanString, JSON,
    InternalAccountString, InternalScopeString) and of [list_distances],
    with the properties stated about them.

    Layout: Python primitives the code calls ([str.lower], [str.replace],
    [str.strip], ["%.32x" % n], the [uuid] module), the dynamically typed
    values the hooks receive, the hooks themselves, the way SQLAlchemy's
    [TypeDecorator] finds them, then the theorems. *)

From Stdlib Require Import ZArith List Bool Ascii String Lia.
From Stdlib.Strings Require Import Byte.
From Stdlib Require Import Decimal DecimalString.
Import ListNotations.

Set Warnings "-register-all".

Local Open Scope string_scope.
Local Open Scope Z_scope.

(* ================================================================== *)
(** ** Exceptions and results *)

(** The exceptions the modelled code can raise.  [InvalidType] is
    [rucio.common.exception.InvalidType]; the others are Python built-ins
    raised by the primitives the hooks call. *)
Inductive exn : Type :=
| InvalidType (msg : string)
| ValueError
| TypeError
| AttributeError
| AssertionError.

Inductive result (A : Type) : Type :=
| Ok (a : A)
| Raise (e : exn).
Arguments Ok {A} a.
Arguments Raise {A} e.

Definition bind {A B : Type} (r : result A) (k : A -> result B) : result B :=
  match r with
  | Ok a => k a
  | Raise e => Raise e
  end.

Notation "x <- r ;; k" := (bind r (fun x => k))
  (at level 61, r at next level, right associativity).

(* ================================================================== *)
(** ** Python [str] primitives *)

Module Py.

(** [str] is modelled by [string]: characters are the 256 values of
    [ascii]; case mapping acts on the ASCII letters and leaves every other
    character alone. *)

Definition is_upper (c : ascii) : bool :=
  let n := N_of_ascii c in (65 <=? n)%N && (n <=? 90)%N.

Definition lower_char (c : ascii) : ascii :=
  if is_upper c then ascii_of_N (N_of_ascii c + 32) else c.

(** [s.lower()] *)
Fixpoint lower (s : string) : string :=
  match s with
  | EmptyString => EmptyString
  | String c s' => String (lower_char c) (lower s')
  end.

Fixpoint mem (c : ascii) (chars : string) : bool :=
  match chars with
  | EmptyString => false
  | String d chars' => Ascii.eqb c d || mem c chars'
  end.

(** [s.lstrip(chars)], [s.rstrip(chars)], [s.strip(chars)] *)
Fixpoint lstrip (chars s : string) : string :=
  match s with
  | EmptyString => EmptyString
  | String c s' => if mem c chars then lstrip chars s' else s
  end.

Fixpoint rstrip (chars s : string) : string :=
  match s with
  | EmptyString => EmptyString
  | String c s' =>
      match rstrip chars s' with
      | EmptyString => if mem c chars then EmptyString else String c EmptyString
      | r => String c r
      end
  end.

Definition strip (chars s : string) : string := rstrip chars (lstrip chars s).

(** [s.replace(old, new)]: non-overlapping occurrences, left to right.
    [skip] counts the characters of a matched occurrence still to drop. *)
Fixpoint replace_from (skip : nat) (old new s : string) : string :=
  match s with
  | EmptyString => EmptyString
  | String c s' =>
      match skip with
      | S k => replace_from k old new s'
      | O =>
          if prefix old s
          then new ++ replace_from (length old - 1) old new s'
          else String c (replace_from 0 old new s')
      end
  end.

Fixpoint interleave (new s : string) : string :=
  match s with
  | EmptyString => EmptyString
  | String c s' => String c (new ++ interleave new s')
  end.

Definition replace (old new s : string) : string :=
  match old with
  | EmptyString => new ++ interleave new s
  | _ => replace_from 0 old new s
  end.

(** Value of a hexadecimal digit, either case. *)
Definition hexval (c : ascii) : option Z :=
  let n := Z.of_N (N_of_ascii c) in
  if (48 <=? n) && (n <=? 57) then Some (n - 48)
  else if (97 <=? n) && (n <=? 102) then Some (n - 87)
  else if (65 <=? n) && (n <=? 70) then Some (n - 55)
  else None.

Fixpoint int16_from (acc : Z) (s : string) : option Z :=
  match s with
  | EmptyString => Some acc
  | String c s' =>
      match hexval c with
      | Some d => int16_from (acc * 16 + d) s'
      | None => None
      end
  end.

(** [int(s, 16)] on the strings made of hexadecimal digits only; [None]
    stands for [ValueError].  (Python's [int] also accepts surrounding
    white space, a sign, a [0x] prefix and single underscores between
    digits; such strings are reported as malformed here.) *)
Definition int16 (s : string) : option Z :=
  match s with
  | EmptyString => None
  | _ => int16_from 0 s
  end.

(** Lowercase hexadecimal digit of [d], [0 <= d < 16]. *)
Definition hexchar (d : Z) : ascii :=
  if d <? 10 then ascii_of_N (Z.to_N (d + 48)) else ascii_of_N (Z.to_N (d + 87)).

(** The [k] low hexadecimal digits of [n], most significant first. *)
Fixpoint hex_fixed (k : nat) (n : Z) : string :=
  match k with
  | O => EmptyString
  | S k' => hex_fixed k' (n / 16) ++ String (hexchar (n mod 16)) EmptyString
  end.

(** Number of hexadecimal digits of [n >= 0] (one for zero). *)
Definition hex_len (n : Z) : nat :=
  if n =? 0 then 1%nat else Z.to_nat (Z.log2 n / 4 + 1).

(** ["%.32x" % n]: at least 32 lowercase hexadecimal digits, zero padded,
    after the sign. *)
Definition format_dot32x (n : Z) : string :=
  if n <? 0
  then "-" ++ hex_fixed (Nat.max 32 (hex_len (- n))) (- n)
  else hex_fixed (Nat.max 32 (hex_len n)) n.

(** [n.to_bytes(k, 'big')] for [0 <= n < 256^k]. *)
Fixpoint to_bytes (k : nat) (n : Z) : list byte :=
  match k with
  | O => []
  | S k' =>
      to_bytes k' (n / 256)
        ++ [match Byte.of_N (Z.to_N (n mod 256)) with Some b => b | None => x00 end]
  end.

(** [int.from_bytes(bs, 'big')] *)
Definition from_bytes (bs : list byte) : Z :=
  fold_left (fun acc b => acc * 256 + Z.of_N (Byte.to_N b)) bs 0.

(** [str(n)] for an [int]. *)
Definition str_of_int (n : Z) : string := NilZero.string_of_int (Z.to_int n).

(** [repr(bs)] for a [bytes] object, which is also its [str]. *)
Definition squote : ascii := ascii_of_N 39.
Definition dquote : ascii := ascii_of_N 34.

Definition bytes_quote (bs : list byte) : ascii :=
  let has c := existsb (fun b => Ascii.eqb (ascii_of_byte b) c) bs in
  if has squote && negb (has dquote) then dquote else squote.

Definition repr_byte (quote : ascii) (b : byte) : string :=
  let c := ascii_of_byte b in
  let n := Z.of_N (Byte.to_N b) in
  if Ascii.eqb c quote || Ascii.eqb c "\"%char then String "\"%char (String c EmptyString)
  else if n =? 9 then "\t"
  else if n =? 10 then "\n"
  else if n =? 13 then "\r"
  else if (n <? 32) || (127 <=? n) then "\x" ++ hex_fixed 2 n
  else String c EmptyString.

Definition repr_bytes (bs : list byte) : string :=
  let q := bytes_quote bs in
  "b" ++ String q (concat EmptyString (map (repr_byte q) bs)) ++ String q EmptyString.

End Py.

(* ================================================================== *)
(** ** The [uuid] module *)

Module uuid.

(** A [uuid.UUID] object: its 128-bit integer.  Objects are only built by
    the constructors below, which check [0 <= int < 1 << 128]. *)
Record UUID : Type := { int : Z }.

Definition of_int (n : Z) : result UUID :=
  if (0 <=? n) && (n <? Z.shiftl 1 128) then Ok {| int := n |} else Raise ValueError.

(** [uuid.UUID(hex)] for a [str] argument:
    strip [urn:] and [uuid:], braces and dashes, require 32 characters,
    read them in base 16. *)
Definition of_hex (hex : string) : result UUID :=
  let hex := Py.replace "uuid:" "" (Py.replace "urn:" "" hex) in
  let hex := Py.replace "-" "" (Py.strip "{}" hex) in
  if negb (Nat.eqb (length hex) 32) then Raise ValueError
  else match Py.int16 hex with
       | Some n => of_int n
       | None => Raise ValueError
       end.

(** [uuid.UUID(bytes=bs)] for a [bytes] argument. *)
Definition of_bytes (bs : list byte) : result UUID :=
  if negb (Nat.eqb (List.length bs) 16) then Raise ValueError
  else of_int (Py.from_bytes bs).

(** [u.bytes] *)
Definition bytes (u : UUID) : list byte := Py.to_bytes 16 (int u).

(** [u.hex]: ['%032x' % u.int] *)
Definition hex (u : UUID) : string := Py.format_dot32x (int u).

(** [str(u)]: the 8-4-4-4-12 dashed form of [u.hex]. *)
Definition str (u : UUID) : string :=
  let h := hex u in
  substring 0 8 h ++ "-" ++ substring 8 4 h ++ "-" ++ substring 12 4 h
    ++ "-" ++ substring 16 4 h ++ "-" ++ substring 20 (length h - 20) h.

End uuid.

(* ================================================================== *)
(** ** Python values *)

(** The values a hook can be handed.  Python is dynamically typed, so the
    hooks discriminate at run time ([isinstance], attribute access); the
    universe keeps the shapes they discriminate on.  [PyObject] is any
    other object: its class name, what [str()] gives for it, and its data
    attributes. *)
Inductive pyvalue : Type :=
| PyNone
| PyBool (b : bool)
| PyInt (n : Z)
| PyStr (s : string)
| PyBytes (bs : list byte)
| PyUUID (u : uuid.UUID)
| PyObject (cls : string) (rendering : string) (attrs : list (string * pyvalue)).

Definition isinstance_bool (v : pyvalue) : bool :=
  match v with PyBool _ => true | _ => false end.

Definition isinstance_str (v : pyvalue) : bool :=
  match v with PyStr _ => true | _ => false end.

Definition isinstance_UUID (v : pyvalue) : bool :=
  match v with PyUUID _ => true | _ => false end.

(** [str(v)] *)
Definition py_str (v : pyvalue) : string :=
  match v with
  | PyNone => "None"
  | PyBool true => "True"
  | PyBool false => "False"
  | PyInt n => Py.str_of_int n
  | PyStr s => s
  | PyBytes bs => Py.repr_bytes bs
  | PyUUID u => uuid.str u
  | PyObject _ r _ => r
  end.

(** [v == s] for a [str] literal [s]: only a [str] equals a [str]. *)
Definition eq_str (v : pyvalue) (s : string) : bool :=
  match v with PyStr t => String.eqb t s | _ => false end.

(** [v.lower()]: [str] and [bytes] have the method. *)
Definition py_lower (v : pyvalue) : result pyvalue :=
  match v with
  | PyStr s => Ok (PyStr (Py.lower s))
  | PyBytes bs =>
      Ok (PyBytes (map (fun b => byte_of_ascii (Py.lower_char (ascii_of_byte b))) bs))
  | _ => Raise AttributeError
  end.

Fixpoint assoc {A : Type} (k : string) (l : list (string * A)) : option A :=
  match l with
  | [] => None
  | (k', a) :: l' => if String.eqb k k' then Some a else assoc k l'
  end.

(** [v.internal]: no built-in value has such an attribute. *)
Definition get_internal (v : pyvalue) : result pyvalue :=
  match v with
  | PyObject _ _ attrs =>
      match assoc "internal" attrs with
      | Some i => Ok i
      | None => Raise AttributeError
      end
  | _ => Raise AttributeError
  end.

(** [uuid.UUID(v)], the argument taken as [hex]: the constructor calls
    [hex.replace('urn:', '')] first, which only a [str] supports. *)
Definition uuid_UUID (v : pyvalue) : result uuid.UUID :=
  match v with
  | PyStr s => uuid.of_hex s
  | PyNone => Raise TypeError
  | PyBytes _ => Raise TypeError
  | _ => Raise AttributeError
  end.

(** [uuid.UUID(bytes=v)]: [len(v) != 16] is tested before
    [assert isinstance(v, bytes)]. *)
Definition uuid_UUID_bytes (v : pyvalue) : result uuid.UUID :=
  match v with
  | PyBytes bs => uuid.of_bytes bs
  | PyStr s => if Nat.eqb (length s) 16 then Raise AssertionError else Raise ValueError
  | _ => Raise TypeError
  end.

(** [v] itself, known to be a [uuid.UUID] ([isinstance] held). *)
Definition as_UUID (v : pyvalue) : result uuid.UUID :=
  match v with
  | PyUUID u => Ok u
  | _ => Raise TypeError
  end.

(** [v.int] *)
Definition get_int (v : pyvalue) : result Z :=
  match v with
  | PyUUID u => Ok (uuid.int u)
  | _ => Raise AttributeError
  end.

(* ================================================================== *)
(** ** SQLAlchemy: dialects, column types, operators *)

(** A dialect, as far as the hooks look at it: [dialect.name]. *)
Record Dialect : Type := { name : string }.

Definition postgresql : Dialect := {| name := "postgresql" |}.
Definition oracle : Dialect := {| name := "oracle" |}.
Definition mysql : Dialect := {| name := "mysql" |}.
(** Any other name takes the fall-back branches; sqlite is the usual one. *)
Definition sqlite : Dialect := {| name := "sqlite" |}.

Module sa.

(** Column types the hooks instantiate; [length] is the optional
    constructor argument. *)
Inductive sqltype : Type :=
| UUID
| RAW (length : Z)
| BINARY (length : Z)
| CHAR (length : option Z)
| String (length : option Z)
| JSONB
| JSON
| CLOB.

(** [dialect.type_descriptor(t)] adapts [t] to the dialect; the shape is
    the one of [t]. *)
Definition type_descriptor (d : Dialect) (t : sqltype) : sqltype := t.

(** The operator functions of [sqlalchemy.sql.operators] that a column
    comparison can hand to [coerce_compared_value]. *)
Inductive operator : Type :=
| eq | ne | lt | le | gt | ge
| is_ | is_not | is_distinct_from | is_not_distinct_from
| like_op | notlike_op | ilike_op | notilike_op
| startswith_op | endswith_op | contains_op | match_op | regexp_match_op
| between_op | notbetween_op | in_op | notin_op
| concat_op | add | sub | mul | truediv | mod_ | neg
| and_ | or_ | inv | getitem | json_getitem_op | json_path_getitem_op.

Definition operator_eq_dec (a b : operator) : {a = b} + {a <> b}.
Proof. decide equality. Defined.

(** [op in ops] on a tuple of operators. *)
Definition op_in (op : operator) (ops : list operator) : bool :=
  existsb (fun o => if operator_eq_dec op o then true else false) ops.

End sa.

(** The five decorator classes of [types.py]. *)
Module cls.
Inductive t : Type :=
| GUID | BooleanString | JSON | InternalAccountString | InternalScopeString.
End cls.

(** A decorator instance [self]: its class and [self.impl], the instance
    [TypeDecorator.__init__] makes of the class attribute [impl] with the
    constructor's arguments. *)
Record decorator : Type := { class_of : cls.t; impl : sa.sqltype }.

(** What [coerce_compared_value] can return: a plain column type or a
    decorator. *)
Inductive type_engine : Type :=
| Plain (t : sa.sqltype)
| Decorated (self : decorator).

(** The class attribute [impl], instantiated with an optional length
    ([impl = CHAR], [impl = String], [impl = types.JSON]). *)
Definition impl_instance (c : cls.t) (length : option Z) : sa.sqltype :=
  match c with
  | cls.GUID => sa.CHAR length
  | cls.BooleanString => sa.String length
  | cls.JSON => sa.JSON
  | cls.InternalAccountString => sa.String length
  | cls.InternalScopeString => sa.String length
  end.

(** [C(length)] / [C()] for a decorator class [C]. *)
Definition new (c : cls.t) (length : option Z) : decorator :=
  {| class_of := c; impl := impl_instance c length |}.

(* ================================================================== *)
(** ** Typed identity wrappers *)

(** Modelled from the spec: the wrapper classes [InternalAccount] and
    [InternalScope] of [rucio.common.types] are not among the sources.
    The spec describes a wrapper as a value that carries an internal,
    namespace-qualified representation distinct from its external one;
    built from an external name it obtains the internal one by
    external-to-internal namespace resolution, and built with
    [from_external=False] it takes the given value as its internal
    representation, without that resolution.  [resolve] is the resolution
    step and [render] the reading of an external name off an internal one;
    both belong to the identity subsystem and are left open. *)
Record Namespace : Type := {
  resolve : pyvalue -> pyvalue;
  render : pyvalue -> pyvalue
}.

(** A computation together with the arguments with which it invoked
    [resolve], in order: the record a spy resolver would keep. *)
Definition Spy (A : Type) : Type := (A * list pyvalue)%type.

Definition quiet {A : Type} (a : A) : Spy A := (a, []).

Definition wrapper (cls : string) (internal external : pyvalue) : pyvalue :=
  PyObject cls (py_str external) [("internal", internal); ("external", external)].

Definition InternalType_init (ns : Namespace) (cls : string)
    (v : pyvalue) (from_external : bool) : Spy pyvalue :=
  if from_external
  then (wrapper cls (resolve ns v) v, [v])
  else (wrapper cls v (render ns v), []).

Definition InternalAccount (ns : Namespace) (v : pyvalue) (from_external : bool) : Spy pyvalue :=
  InternalType_init ns "InternalAccount" v from_external.

Definition InternalScope (ns : Namespace) (v : pyvalue) (from_external : bool) : Spy pyvalue :=
  InternalType_init ns "InternalScope" v from_external.

(* ================================================================== *)
(** ** The hooks of [types.py] *)

(** [if v:] *)
Definition truthy (v : pyvalue) : bool :=
  match v with
  | PyNone => false
  | PyBool b => b
  | PyInt n => negb (n =? 0)
  | PyStr s => negb (Nat.eqb (length s) 0)
  | PyBytes bs => negb (Nat.eqb (List.length bs) 0)
  | PyUUID _ => true
  | PyObject _ _ _ => true
  end.

Module GUID.

Definition load_dialect_impl (dialect : Dialect) : sa.sqltype :=
  if (name dialect =? "postgresql")%string then sa.type_descriptor dialect sa.UUID
  else if (name dialect =? "oracle")%string then sa.type_descriptor dialect (sa.RAW 16)
  else if (name dialect =? "mysql")%string then sa.type_descriptor dialect (sa.BINARY 16)
  else sa.type_descriptor dialect (sa.CHAR (Some 32)).

Definition process_bind_param (value : pyvalue) (dialect : Dialect) : result pyvalue :=
  match value with
  | PyNone => Ok value
  | _ =>
      if (name dialect =? "postgresql")%string then
        Ok (PyStr (Py.lower (py_str value)))
      else if (name dialect =? "oracle")%string then
        u <- uuid_UUID value ;; Ok (PyBytes (uuid.bytes u))
      else if (name dialect =? "mysql")%string then
        u <- uuid_UUID value ;; Ok (PyBytes (uuid.bytes u))
      else if negb (isinstance_UUID value) then
        u <- uuid_UUID value ;; Ok (PyStr (Py.format_dot32x (uuid.int u)))
      else
        n <- get_int value ;; Ok (PyStr (Py.format_dot32x n))
  end.

(** [str(u).replace('-', '').lower()] *)
Definition canonical (u : uuid.UUID) : pyvalue :=
  PyStr (Py.lower (Py.replace "-" "" (uuid.str u))).

Definition process_result_value (value : pyvalue) (dialect : Dialect) : result pyvalue :=
  match value with
  | PyNone => Ok value
  | _ =>
      if (name dialect =? "oracle")%string then
        u <- (if isinstance_UUID value then as_UUID value
              else uuid_UUID_bytes value) ;;
        Ok (canonical u)
      else if (name dialect =? "mysql")%string then
        u <- (if isinstance_UUID value then as_UUID value
              else uuid_UUID_bytes value) ;;
        Ok (canonical u)
      else
        u <- (if isinstance_UUID value then as_UUID value
              else uuid_UUID value) ;;
        Ok (canonical u)
  end.

End GUID.

Module BooleanString.

(** The method is spelled [load_dialect_imp] in the class body. *)
Definition load_dialect_imp (dialect : Dialect) : sa.sqltype :=
  sa.type_descriptor dialect (sa.String (Some 255)).

Definition process_bind_param (value : pyvalue) (dialect : Dialect) : result pyvalue :=
  match value with
  | PyNone => Ok value
  | _ =>
      if isinstance_bool value then
        if truthy value then Ok (PyStr "true") else Ok (PyStr "false")
      else if isinstance_str value then
        l <- py_lower value ;;
        if eq_str l "true" then Ok (PyStr "true")
        else if eq_str l "false" then Ok (PyStr "false")
        else Ok (PyStr (py_str value))
      else Ok (PyStr (py_str value))
  end.

Definition process_result_value (value : pyvalue) (dialect : Dialect) : result pyvalue :=
  match value with
  | PyNone => Ok value
  | _ =>
      l <- py_lower value ;;
      if eq_str l "true" then Ok (PyBool true)
      else if eq_str l "false" then Ok (PyBool false)
      else Ok value
  end.

End BooleanString.

Module JSON.

(** The class body holds this one method: no [process_bind_param], no
    [process_result_value]. *)
Definition load_dialect_impl (dialect : Dialect) : sa.sqltype :=
  if (name dialect =? "postgresql")%string then sa.type_descriptor dialect sa.JSONB
  else if (name dialect =? "mysql")%string then sa.type_descriptor dialect sa.JSON
  else if (name dialect =? "oracle")%string then sa.type_descriptor dialect sa.CLOB
  else sa.type_descriptor dialect (sa.String None).

End JSON.

Module InternalAccountString.

Definition load_dialect_imp (dialect : Dialect) : sa.sqltype :=
  sa.type_descriptor dialect (sa.String (Some 255)).

Definition process_bind_param (value : pyvalue) (dialect : Dialect) : result pyvalue :=
  match value with
  | PyNone => Ok value
  | _ =>
      if isinstance_str value then
        Raise (InvalidType "Cannot insert to db. Expected InternalAccount, got string type.")
      else get_internal value
  end.

Definition process_result_value (ns : Namespace) (value : pyvalue) (dialect : Dialect)
    : Spy (result pyvalue) :=
  match value with
  | PyNone => quiet (Ok value)
  | _ => let (w, calls) := InternalAccount ns value false in (Ok w, calls)
  end.

Definition coerce_compared_value (self : decorator) (op : sa.operator) (value : pyvalue)
    : type_engine :=
  if sa.op_in op [sa.like_op; sa.notlike_op] then Plain (sa.String None)
  else Decorated self.

End InternalAccountString.

Module InternalScopeString.

Definition load_dialect_imp (dialect : Dialect) : sa.sqltype :=
  sa.type_descriptor dialect (sa.String (Some 255)).

Definition process_bind_param (value : pyvalue) (dialect : Dialect) : result pyvalue :=
  match value with
  | PyNone => Ok value
  | _ =>
      if isinstance_str value then
        Raise (InvalidType "Cannot insert to db. Expected InternalScope, got string type.")
      else get_internal value
  end.

Definition process_result_value (ns : Namespace) (value : pyvalue) (dialect : Dialect)
    : Spy (result pyvalue) :=
  match value with
  | PyNone => quiet (Ok value)
  | _ => let (w, calls) := InternalScope ns value false in (Ok w, calls)
  end.

Definition coerce_compared_value (self : decorator) (op : sa.operator) (value : pyvalue)
    : type_engine :=
  if sa.op_in op [sa.like_op; sa.notlike_op] then Plain (sa.String None)
  else Decorated self.

End InternalScopeString.

(* ================================================================== *)
(** ** How [TypeDecorator] finds the hooks *)

(** A method of a class body, by the shape of its signature. *)
Inductive method : Type :=
| shape_method (f : Dialect -> sa.sqltype)
| bind_method (f : pyvalue -> Dialect -> result pyvalue)
| result_method (f : Namespace -> pyvalue -> Dialect -> Spy (result pyvalue))
| coerce_method (f : decorator -> sa.operator -> pyvalue -> type_engine).

(** The [def]s of each class body, under the names they are written
    with. *)
Definition class_body (c : cls.t) : list (string * method) :=
  match c with
  | cls.GUID =>
      [ ("load_dialect_impl", shape_method GUID.load_dialect_impl);
        ("process_bind_param", bind_method GUID.process_bind_param);
        ("process_result_value",
           result_method (fun _ v d => quiet (GUID.process_result_value v d))) ]
  | cls.BooleanString =>
      [ ("load_dialect_imp", shape_method BooleanString.load_dialect_imp);
        ("process_bind_param", bind_method BooleanString.process_bind_param);
        ("process_result_value",
           result_method (fun _ v d => quiet (BooleanString.process_result_value v d))) ]
  | cls.JSON =>
      [ ("load_dialect_impl", shape_method JSON.load_dialect_impl) ]
  | cls.InternalAccountString =>
      [ ("load_dialect_imp", shape_method InternalAccountString.load_dialect_imp);
        ("process_bind_param", bind_method InternalAccountString.process_bind_param);
        ("process_result_value", result_method InternalAccountString.process_result_value);
        ("coerce_compared_value",
           coerce_method InternalAccountString.coerce_compared_value) ]
  | cls.InternalScopeString =>
      [ ("load_dialect_imp", shape_method InternalScopeString.load_dialect_imp);
        ("process_bind_param", bind_method InternalScopeString.process_bind_param);
        ("process_result_value", result_method InternalScopeString.process_result_value);
        ("coerce_compared_value",
           coerce_method InternalScopeString.coerce_compared_value) ]
  end.

Module TypeDecorator.

(** SQLAlchemy asks a decorator for its column type through the method
    named [load_dialect_impl]; a class that does not define it inherits
    the base one, which returns [self.impl]. *)
Definition load_dialect_impl (self : decorator) (dialect : Dialect) : sa.sqltype :=
  match assoc "load_dialect_impl" (class_body (class_of self)) with
  | Some (shape_method f) => f dialect
  | _ => impl self
  end.

(** The column type a decorator gets under a dialect. *)
Definition physical_shape (self : decorator) (dialect : Dialect) : sa.sqltype :=
  sa.type_descriptor dialect (load_dialect_impl self dialect).



(** [coerce_compared_value]: the class's own, or the base one, which
    returns [self]. *)
Definition coerce_compared_value (self : decorator) (op : sa.operator) (value : pyvalue)
    : type_engine :=
  match assoc "coerce_compared_value" (class_body (class_of self)) with
  | Some (coerce_method f) => f self op value
  | _ => Decorated self
  end.

End TypeDecorator.

(* ================================================================== *)
(** ** [rucio.core.distance]: listing the distances *)

Module distance.

Section Listing.

(** [models.Distance] and its [to_dict] live in [rucio.db.sqla.models],
    which is not among the sources: the row type, the dictionary type and
    the projection are taken as given. *)
Variable Distance : Type.
Variable dict : Type.
Variable to_dict : Distance -> dict.

(** A [select(Distance)] statement: the predicates its [.where()] calls have
    added so far. *)
Record statement : Type := { whereclauses : list (Distance -> bool) }.

Definition select : statement := {| whereclauses := [] |}.

Definition where_ (stmt : statement) (p : Distance -> bool) : statement :=
  {| whereclauses := whereclauses stmt ++ [p] |}.

(** A session, as far as a read goes: the rows of the distance table in
    the order the database hands them out. *)
Record Session : Type := { rows : list Distance }.

(** [session.execute(stmt).scalars().all()] *)
Definition execute_all (session : Session) (stmt : statement) : list Distance :=
  filter (fun row => forallb (fun p => p row) (whereclauses stmt)) (rows session).

(** A filter dictionary, [Optional[dict[str, Any]]]. *)
Definition filter_dict : Type := option (list (string * pyvalue)).

(** [filter_ or {}]: [None] and the empty dictionary are both false. *)
Definition or_empty (filter_ : filter_dict) : list (string * pyvalue) :=
  match filter_ with
  | Some (_ :: _ as d) => d
  | _ => []
  end.

Definition list_distances (filter_ : filter_dict) (session : Session) : list dict :=
  let filter_ := or_empty filter_ in
  let stmt := select in
  map to_dict (execute_all session stmt).

End Listing.

End distance.

(* ================================================================== *)
(** ** Notions the statements use *)

(** The sixteen lowercase hexadecimal digits. *)
Definition hexdigits : string := "0123456789abcdef".

(** Every character of [s] is one of [chars]. *)
Fixpoint all_in (chars s : string) : bool :=
  match s with
  | EmptyString => true
  | String c s' => Py.mem c chars && all_in chars s'
  end.

(** The canonical form of a 128-bit identifier: its 32 hexadecimal
    digits, lowercase, most significant first, no separators. *)
Definition canonical_lowercase_hex (n : Z) : string := Py.hex_fixed 32 n.

(** The 8-4-4-4-12 grouping of [uuid.str], on any string. *)
Definition dashed (h : string) : string :=
  substring 0 8 h ++ "-" ++ substring 8 4 h ++ "-" ++ substring 12 4 h
    ++ "-" ++ substring 16 4 h ++ "-" ++ substring 20 (length h - 20) h.

(** Hexadecimal digits of either case; with the dash and the braces
    [uuid.UUID] drops; with the characters of the [uuid:] prefix as well. *)
Definition hexboth : string := "0123456789abcdefABCDEF".
Definition hexlike : string := (hexboth ++ "-") ++ "{}".
Definition prelike : string := hexlike ++ "uuid:".


(** Two strings are equal up to the case of their letters. *)
Definition caseless_eq (a b : string) : Prop := Py.lower a = Py.lower b.

(** The literal a boolean is stored as. *)
Definition literal (b : bool) : string := if b then "true" else "false".

(** Encoding then decoding, as one computation. *)
Definition roundtrip (encode decode : pyvalue -> Dialect -> result pyvalue)
    (value : pyvalue) (dialect : Dialect) : result pyvalue :=
  v <- encode value dialect ;; decode v dialect.


(* ================================================================== *)
(** ** Dictionaries and the repository's exceptions *)

(** A Python [dict] with string keys: the items in insertion order, each
    key once. *)
Definition pydict : Type := list (string * pyvalue).

(** [d.get(k)] / [d[k]] *)
Definition dict_get (d : pydict) (k : string) : option pyvalue := assoc k d.

(** [d[k] = v]: an existing key keeps its place, a new one goes last. *)
Fixpoint dict_set (k : string) (v : pyvalue) (d : pydict) : pydict :=
  match d with
  | [] => [(k, v)]
  | (k', v') :: d' =>
      if String.eqb k k' then (k, v) :: d' else (k', v') :: dict_set k v d'
  end.

(** The exceptions of [rucio.common.exception] the record functions
    raise, with the built-ins that can escape them. *)
Module exception.
Inductive t : Type :=
| RucioException (msg : string)
| UnsupportedOperation (msg : string)
| VONotFound (msg : string)
| KeyError (key : string)
| MultipleResultsFound.
End exception.

Inductive outcome (A : Type) : Type :=
| Done (a : A)
| Fail (e : exception.t).
Arguments Done {A} a.
Arguments Fail {A} e.

(** A [for] loop that builds a list and stops at the first exception. *)
Fixpoint for_each {A B : Type} (f : A -> outcome B) (l : list A) : outcome (list B) :=
  match l with
  | [] => Done []
  | a :: l' =>
      match f a with
      | Fail e => Fail e
      | Done b =>
          match for_each f l' with
          | Fail e => Fail e
          | Done bs => Done (b :: bs)
          end
      end
  end.

(** [if x:] for an [Optional[str]] argument. *)
Definition given (x : option string) : bool :=
  match x with
  | Some s => truthy (PyStr s)
  | None => truthy PyNone
  end.

(* ================================================================== *)
(** ** [rucio.core.distance]: reading, deleting, updating *)

Module distances.

(** A row of the distance table: the columns the functions name, and the
    remaining ones ([models.Distance] is not among the sources). *)
Record Distance : Type := {
  src_rse_id : string;
  dest_rse_id : string;
  distance : pyvalue;
  columns : pydict
}.

Section Operations.

(** [Distance.to_dict], and what the schema does to the remaining columns
    of a row on UPDATE; both are declared in [rucio.db.sqla.models]. *)
Variable to_dict : Distance -> pydict.
Variable onupdate : pydict -> pydict.

(** The database's verdict on the table a statement would leave: [None]
    when it is accepted, the arguments of the [IntegrityError] otherwise
    (the constraints are declared with the schema). *)
Variable integrity_error : list Distance -> option string.

Definition Session : Type := distance.Session Distance.

(** [Distance.src_rse_id == x], [Distance.dest_rse_id == x] *)
Definition src_is (x : string) (row : Distance) : bool := String.eqb (src_rse_id row) x.
Definition dest_is (x : string) (row : Distance) : bool := String.eqb (dest_rse_id row) x.

(** The loop body of [get_distances]. *)
Definition with_ranking (t : Distance) : outcome pydict :=
  let t2 := to_dict t in
  match dict_get t2 "distance" with
  | Some d => Done (dict_set "ranking" d t2)
  | None => Fail (exception.KeyError "distance")
  end.

(** The body of the [try] of [get_distances].  Its handler, which turns
    an [IntegrityError] raised by the database into a [RucioException],
    is not part of this model of a read: no statement about how
    [get_distances] fails is made from it. *)
Definition get_distances (src_rse_id dest_rse_id : option string) (session : Session)
    : outcome (list pydict) :=
  let stmt := distance.select Distance in
  let stmt :=
    match src_rse_id with
    | Some s => if given src_rse_id then distance.where_ Distance stmt (src_is s) else stmt
    | None => stmt
    end in
  let stmt :=
    match dest_rse_id with
    | Some d => if given dest_rse_id then distance.where_ Distance stmt (dest_is d) else stmt
    | None => stmt
    end in
  for_each with_ranking (distance.execute_all Distance session stmt).

(** [and_(Distance.src_rse_id == s, Distance.dest_rse_id == d)] *)
Definition both (s d : string) (row : Distance) : bool := src_is s row && dest_is d row.

(** [session.execute(stmt)] for a statement that leaves the table as
    [rows'], inside [try: ... except IntegrityError as error: raise
    exception.RucioException(error.args)]. *)
Definition execute_write (rows' : list Distance) : outcome Session :=
  match integrity_error rows' with
  | Some args => Fail (exception.RucioException args)
  | None => Done {| distance.rows := rows' |}
  end.

Definition delete_distances (src_rse_id dest_rse_id : option string) (session : Session)
    : outcome Session :=
  match src_rse_id, dest_rse_id with
  | Some s, Some d =>
      if negb (given dest_rse_id) || negb (given src_rse_id) then Done session
      else execute_write
             (filter (fun row => negb (both s d row)) (distance.rows Distance session))
  | _, _ => Done session
  end.

(** [.values({Distance.distance: v})] on one row. *)
Definition set_distance (v : pyvalue) (row : Distance) : Distance :=
  {| src_rse_id := src_rse_id row;
     dest_rse_id := dest_rse_id row;
     distance := v;
     columns := onupdate (columns row) |}.

Definition update_distances (src_rse_id dest_rse_id : option string) (distance_ : pyvalue)
    (session : Session) : outcome Session :=
  match src_rse_id, dest_rse_id with
  | Some s, Some d =>
      if negb (given dest_rse_id) || negb (given src_rse_id) then Done session
      else execute_write
             (map (fun row => if both s d row then set_distance distance_ row else row)
                  (distance.rows Distance session))
  | _, _ => Done session
  end.

End Operations.

End distances.

(* ================================================================== *)
(** ** [rucio.core.vo] *)

Module vos.

(** A row of the VO table, with the columns [list_vos] reads. *)
Record VO : Type := {
  vo : string;
  description : pyvalue;
  email : pyvalue;
  created_at : pyvalue;
  updated_at : pyvalue
}.

Definition newline : ascii := ascii_of_N 10.

(** A character of the class [[a-zA-Z0-9\.\-]]. *)
Definition in_class (c : ascii) : bool :=
  let n := N_of_ascii c in
  ((97 <=? n) && (n <=? 122) || (65 <=? n) && (n <=? 90) || (48 <=? n) && (n <=? 57)
   || (n =? 46) || (n =? 45))%N.

(** The rest of a match of [^[a-zA-Z0-9\.\-]+$], after the first
    character: more characters of the class, then [$], which holds at the
    end of the string and just before a newline that ends it. *)
Fixpoint class_star_end (s : string) : bool :=
  match s with
  | EmptyString => true
  | String c s' =>
      in_class c && class_star_end s'
      || Ascii.eqb c newline && (match s' with EmptyString => true | _ => false end)
  end.

(** [LONG_VO_RE.match(vo)], as a truth value. *)
Definition LONG_VO_RE_match (vo : string) : bool :=
  match vo with
  | EmptyString => false
  | String c s' => in_class c && class_star_end s'
  end.

Section Operations.

(** Configuration: [config_get_bool('common', 'multi_vo',
    raise_exception=False, default=False)] and the options of the
    [vo-map] section; and what the schema does to [updated_at] on
    UPDATE. *)
Variable multi_vo : bool.
Variable vo_map : string -> option string.
Variable onupdate : pyvalue -> pyvalue.

Record Session : Type := { rows : list VO }.

Definition single_vo_mode : exception.t :=
  exception.UnsupportedOperation "VO operations cannot be performed in single VO mode.".

(** [select(models.VO).where(models.VO.vo == vo)], executed. *)
Definition select_vo (vo_ : string) (session : Session) : list VO :=
  filter (fun row => String.eqb (vo row) vo_) (rows session).

(** [bool(session.execute(stmt).scalar())]: the first row or [None]; a
    row object is true. *)
Definition vo_exists (vo_ : string) (session : Session) : bool :=
  match select_vo vo_ session with
  | [] => false
  | _ :: _ => true
  end.

Definition vo_dict (row : VO) : pydict :=
  [ ("vo", PyStr (vo row));
    ("description", description row);
    ("email", email row);
    ("created_at", created_at row);
    ("updated_at", updated_at row) ].

Definition list_vos (session : Session) : outcome (list pydict) :=
  if negb multi_vo then Fail single_vo_mode
  else Done (map vo_dict (rows session)).

(** [key in ['email', 'description']] *)
Definition updatable (key : string) : bool :=
  String.eqb key "email" || String.eqb key "description".

(** The loop that builds [param] out of [parameters]. *)
Fixpoint select_params (parameters param : pydict) : pydict :=
  match parameters with
  | [] => param
  | (key, value) :: rest =>
      if updatable key then select_params rest (dict_set key value param)
      else select_params rest param
  end.

(** [.values(param)] on one row. *)
Definition set_values (param : pydict) (row : VO) : VO :=
  {| vo := vo row;
     description := match dict_get param "description" with
                    | Some v => v
                    | None => description row
                    end;
     email := match dict_get param "email" with
              | Some v => v
              | None => email row
              end;
     created_at := created_at row;
     updated_at := onupdate (updated_at row) |}.

Definition update_vo (vo_ : string) (parameters : pydict) (session : Session)
    : outcome Session :=
  if negb multi_vo then Fail single_vo_mode
  else
    match select_vo vo_ session with
    | [] => Fail (exception.VONotFound ("VO " ++ vo_ ++ " not found"))
    | [_] =>
        let param := select_params parameters [] in
        Done {| rows := map (fun row => if String.eqb (vo row) vo_
                                        then set_values param row else row)
                            (rows session) |}
    | _ :: _ :: _ => Fail exception.MultipleResultsFound
    end.

Definition map_vo (vo_ : string) : outcome string :=
  if negb (LONG_VO_RE_match vo_) || Py.mem newline vo_
  then Fail (exception.RucioException "Invalid characters in VO name.")
  else Done (match vo_map vo_ with
             | Some short => short
             | None => vo_
             end).

End Operations.

End vos.

(* ================================================================== *)
(** ** Notions the further statements use *)

(** A value a driver can hand to the decode: a [uuid.UUID] object holds a
    128-bit integer. *)
Definition wellformed (v : pyvalue) : Prop :=
  match v with
  | PyUUID u => 0 <= uuid.int u < 2 ^ 128
  | _ => True
  end.

(** The rows an [Optional[str]] pair selects: an absent or empty
    identifier selects on nothing. *)
Definition selected (src dest : option string) (row : distances.Distance) : bool :=
  (match src with
   | Some s => if String.eqb s "" then true else String.eqb (distances.src_rse_id row) s
   | None => true
   end)
  && (match dest with
      | Some d => if String.eqb d "" then true else String.eqb (distances.dest_rse_id row) d
      | None => true
      end).

(** The characters a VO name may have. *)
Definition vo_chars : string :=
  "abcdefghijklmnopqrstuvwxyzABCDEFGHIJKLMNOPQRSTUVWXYZ0123456789.-".

(** A VO name [map_vo] lets through: not empty, made of those. *)
Definition valid_vo_name (s : string) : bool :=
  negb (String.eqb s "") && all_in vo_chars s.

(** A small distance table and VO table, with plain instances of what
    the schema supplies, for the examples. *)
Definition sample_to_dict (row : distances.Distance) : pydict :=
  [ ("src_rse_id", PyStr (distances.src_rse_id row));
    ("dest_rse_id", PyStr (distances.dest_rse_id row));
    ("distance", distances.distance row) ].

Definition sample_row (s d : string) (n : Z) : distances.Distance :=
  {| distances.src_rse_id := s; distances.dest_rse_id := d;
     distances.distance := PyInt n; distances.columns := [] |}.

Definition sample_distances : distances.Session :=
  {| distance.rows := [sample_row "a" "b" 1; sample_row "a" "c" 2; sample_row "b" "c" 3] |}.

Definition accept_all (rows : list distances.Distance) : option string := None.

Definition sample_vo (tag mail : string) : vos.VO :=
  {| vos.vo := tag; vos.description := PyStr ""; vos.email := PyStr mail;
     vos.created_at := PyInt 0; vos.updated_at := PyInt 0 |}.

Definition sample_vos : vos.Session :=
  {| vos.rows := [sample_vo "def" "root@def"; sample_vo "abc" "root@abc"] |}.

(* ================================================================== *)
(** * Properties *)

(** ** Strings, digits and bytes *)

Section StringFacts.

Lemma length_append (a b : string) : length (a ++ b) = (length a + length b)%nat.
Proof. induction a; simpl; congruence. Qed.

Lemma all_in_append chars a b :
  all_in chars (a ++ b) = all_in chars a && all_in chars b.
Proof.
  induction a as [|c a IH]; simpl; [reflexivity|].
  rewrite IH. now rewrite andb_assoc.
Qed.

Lemma substring_nil a b : substring a b "" = "".
Proof. destruct a, b; reflexivity. Qed.

Lemma substring_split (s : string) : forall a b c,
  substring a (b + c) s = substring a b s ++ substring (a + b) c s.
Proof.
  induction s as [|ch s IH]; intros a b c.
  - now rewrite !substring_nil.
  - destruct a as [|a]; simpl.
    + destruct b as [|b]; simpl; [reflexivity|].
      f_equal. apply (IH 0%nat).
    + apply IH.
Qed.

Lemma substring_all (s : string) : substring 0 (length s) s = s.
Proof. induction s; simpl; congruence. Qed.

Lemma all_in_substring chars (s : string) : forall a b,
  all_in chars s = true -> all_in chars (substring a b s) = true.
Proof.
  induction s as [|ch s IH]; intros a b H.
  - now rewrite substring_nil.
  - simpl in H. apply andb_true_iff in H as [Hc Hs].
    destruct a as [|a]; simpl.
    + destruct b as [|b]; simpl; [reflexivity|].
      rewrite Hc. now apply IH.
    + now apply IH.
Qed.

End StringFacts.

Section HexStrings.

Ltac hex_cases H :=
  cbn in H;
  repeat (apply orb_true_iff in H as [H|H]);
  try discriminate H;
  apply Ascii.eqb_eq in H; subst.

Lemma lower_char_hexdigit c : Py.mem c hexdigits = true -> Py.lower_char c = c.
Proof. intros H. hex_cases H; reflexivity. Qed.

Lemma hexchar_hexdigit d : 0 <= d < 16 -> Py.mem (Py.hexchar d) hexdigits = true.
Proof.
  intros H.
  assert (C : d = 0 \/ d = 1 \/ d = 2 \/ d = 3 \/ d = 4 \/ d = 5 \/ d = 6 \/ d = 7 \/
              d = 8 \/ d = 9 \/ d = 10 \/ d = 11 \/ d = 12 \/ d = 13 \/ d = 14 \/ d = 15)
    by lia.
  repeat destruct C as [C|C]; subst; reflexivity.
Qed.

Lemma hexval_hexchar d : 0 <= d < 16 -> Py.hexval (Py.hexchar d) = Some d.
Proof.
  intros H.
  assert (C : d = 0 \/ d = 1 \/ d = 2 \/ d = 3 \/ d = 4 \/ d = 5 \/ d = 6 \/ d = 7 \/
              d = 8 \/ d = 9 \/ d = 10 \/ d = 11 \/ d = 12 \/ d = 13 \/ d = 14 \/ d = 15)
    by lia.
  repeat destruct C as [C|C]; subst; reflexivity.
Qed.

Lemma lower_hexdigits s : all_in hexdigits s = true -> Py.lower s = s.
Proof.
  induction s as [|c s IH]; simpl; [reflexivity|].
  intros H. apply andb_true_iff in H as [Hc Hs].
  now rewrite (lower_char_hexdigit c Hc), IH.
Qed.

(** A character outside [keep] does not occur in a string made of [keep]. *)
Lemma mem_all_in keep c s :
  all_in keep s = true -> Py.mem c keep = false -> Py.mem c s = false.
Proof.
  induction s as [|h s IH]; simpl; [reflexivity|].
  intros H Hc. apply andb_true_iff in H as [Hh Hs].
  rewrite (IH Hs Hc), orb_false_r.
  apply Ascii.eqb_neq. intros ->. congruence.
Qed.

Lemma replace_from_absent c old new s :
  Py.mem c s = false -> Py.replace_from 0 (String c old) new s = s.
Proof.
  induction s as [|h s IH]; simpl; [reflexivity|].
  intros H. apply orb_false_iff in H as [Hh Hs].
  apply Ascii.eqb_neq in Hh.
  destruct (ascii_dec c h) as [->|_]; [congruence|].
  now rewrite IH.
Qed.

Lemma replace_absent c old new s :
  Py.mem c s = false -> Py.replace (String c old) new s = s.
Proof. apply replace_from_absent. Qed.

Lemma lstrip_absent chars keep s :
  all_in keep s = true ->
  (forall c, Py.mem c keep = true -> Py.mem c chars = false) ->
  Py.lstrip chars s = s.
Proof.
  intros H D. destruct s as [|h s]; simpl; [reflexivity|].
  simpl in H. apply andb_true_iff in H as [Hh _].
  now rewrite (D h Hh).
Qed.

Lemma rstrip_absent chars keep s :
  all_in keep s = true ->
  (forall c, Py.mem c keep = true -> Py.mem c chars = false) ->
  Py.rstrip chars s = s.
Proof.
  intros H D. induction s as [|h s IH]; simpl; [reflexivity|].
  simpl in H. apply andb_true_iff in H as [Hh Hs].
  rewrite (IH Hs). destruct s; [now rewrite (D h Hh)|reflexivity].
Qed.

Lemma strip_absent chars keep s :
  all_in keep s = true ->
  (forall c, Py.mem c keep = true -> Py.mem c chars = false) ->
  Py.strip chars s = s.
Proof.
  intros H D. unfold Py.strip.
  rewrite (lstrip_absent chars keep s H D). now apply rstrip_absent with keep.
Qed.

End HexStrings.

Section Digits.

Lemma length_hex_fixed k : forall n, length (Py.hex_fixed k n) = k.
Proof.
  induction k as [|k IH]; intros n; simpl; [reflexivity|].
  rewrite length_append, IH. simpl. lia.
Qed.

Lemma all_in_hex_fixed k : forall n, all_in hexdigits (Py.hex_fixed k n) = true.
Proof.
  induction k as [|k IH]; intros n; [reflexivity|].
  cbn [Py.hex_fixed]. rewrite all_in_append, IH.
  cbn [all_in andb]. rewrite hexchar_hexdigit; [reflexivity|].
  apply Z.mod_pos_bound. lia.
Qed.

Lemma int16_from_append a b : forall acc,
  Py.int16_from acc (a ++ b) =
  match Py.int16_from acc a with
  | Some acc' => Py.int16_from acc' b
  | None => None
  end.
Proof.
  induction a as [|c a IH]; intros acc; simpl; [reflexivity|].
  destruct (Py.hexval c); [apply IH|reflexivity].
Qed.

Lemma int16_from_hex_fixed k : forall n acc, 0 <= n ->
  Py.int16_from acc (Py.hex_fixed k n) = Some (acc * 16 ^ Z.of_nat k + n mod 16 ^ Z.of_nat k).
Proof.
  induction k as [|k IH]; intros n acc Hn.
  - cbn. f_equal. rewrite Z.mod_1_r. lia.
  - cbn [Py.hex_fixed]. rewrite int16_from_append, IH by (apply Z.div_pos; lia).
    cbn [Py.int16_from]. rewrite hexval_hexchar by (apply Z.mod_pos_bound; lia).
    f_equal. rewrite Nat2Z.inj_succ, Z.pow_succ_r by lia.
    assert (P : 0 < 16 ^ Z.of_nat k) by (apply Z.pow_pos_nonneg; lia).
    rewrite (Z.rem_mul_r n 16 (16 ^ Z.of_nat k)) by lia.
    lia.
Qed.

End Digits.

Section Uuid.

Lemma int16_hex_fixed k n : (0 < k)%nat -> 0 <= n ->
  Py.int16 (Py.hex_fixed k n) = Some (n mod 16 ^ Z.of_nat k).
Proof.
  intros Hk Hn. unfold Py.int16.
  pose proof (length_hex_fixed k n) as L.
  pose proof (int16_from_hex_fixed k n 0 Hn) as E.
  destruct (Py.hex_fixed k n); [simpl in L; lia|].
  rewrite E. f_equal.
Qed.

Lemma of_int_in_range n : 0 <= n < 2 ^ 128 -> uuid.of_int n = Ok {| uuid.int := n |}.
Proof.
  intros H. unfold uuid.of_int.
  replace (Z.shiftl 1 128) with (2 ^ 128) by reflexivity.
  destruct (Z.leb_spec 0 n); [|lia].
  destruct (Z.ltb_spec n (2 ^ 128)); [reflexivity|lia].
Qed.

(** [uuid.UUID(h)] on a string of 32 hexadecimal digits reads the digits. *)
Lemma of_hex_plain h n :
  all_in hexdigits h = true -> length h = 32%nat -> Py.int16 h = Some n ->
  0 <= n < 2 ^ 128 ->
  uuid.of_hex h = Ok {| uuid.int := n |}.
Proof.
  intros A L I R. unfold uuid.of_hex.
  rewrite (replace_absent "u" "rn:" "" h) by (now apply mem_all_in with hexdigits).
  rewrite (replace_absent "u" "uid:" "" h) by (now apply mem_all_in with hexdigits).
  rewrite (strip_absent "{}" hexdigits h A).
  2:{ intros c Hc. cbn in Hc.
      repeat (apply orb_true_iff in Hc as [Hc|Hc]); try discriminate Hc;
        apply Ascii.eqb_eq in Hc; subst; reflexivity. }
  rewrite (replace_absent "-" "" "" h) by (now apply mem_all_in with hexdigits).
  rewrite L, I. cbn [Nat.eqb negb]. now apply of_int_in_range.
Qed.

Lemma prefix_nil s : prefix "" s = true.
Proof. now destruct s. Qed.

Lemma replace_from_char_append c a b :
  Py.replace_from 0 (String c "") "" (a ++ b) =
  Py.replace_from 0 (String c "") "" a ++ Py.replace_from 0 (String c "") "" b.
Proof.
  induction a as [|h a IH]; [reflexivity|].
  cbn [append Py.replace_from prefix length Nat.sub].
  destruct (ascii_dec c h); rewrite ?prefix_nil; cbn [append]; now rewrite IH.
Qed.


Lemma undash_dashed h :
  all_in hexdigits h = true -> length h = 32%nat ->
  Py.replace "-" "" (dashed h) = h.
Proof.
  intros A L. unfold Py.replace, dashed. rewrite L.
  assert (P : forall a b,
             Py.replace_from 0 "-" "" (substring a b h) = substring a b h).
  { intros a b. apply replace_from_absent.
    apply mem_all_in with hexdigits; [now apply all_in_substring|reflexivity]. }
  assert (D : forall s, Py.replace_from 0 "-" "" ("-" ++ s) = Py.replace_from 0 "-" "" s).
  { intros s. cbn [append Py.replace_from prefix length Nat.sub].
    destruct (ascii_dec "-" "-"); [now rewrite prefix_nil|congruence]. }
  repeat (rewrite replace_from_char_append, P, D).
  rewrite P.
  change (32 - 20)%nat with 12%nat.
  rewrite <- (substring_split h 16 4 12 : substring 16 16 h = _ ++ substring 20 12 h).
  rewrite <- (substring_split h 12 4 16 : substring 12 20 h = _ ++ substring 16 16 h).
  rewrite <- (substring_split h 8 4 20 : substring 8 24 h = _ ++ substring 12 20 h).
  rewrite <- (substring_split h 0 8 24 : substring 0 32 h = _ ++ substring 8 24 h).
  rewrite <- L. apply substring_all.
Qed.

Lemma format_dot32x_in_range n : 0 <= n < 2 ^ 128 ->
  Py.format_dot32x n = Py.hex_fixed 32 n.
Proof.
  intros [H0 H1]. unfold Py.format_dot32x.
  destruct (Z.ltb_spec n 0); [lia|].
  replace (Nat.max 32 (Py.hex_len n)) with 32%nat; [reflexivity|].
  symmetry. apply Nat.max_l. unfold Py.hex_len.
  destruct (Z.eqb_spec n 0); [lia|].
  assert (Z.log2 n < 128) by (apply Z.log2_lt_pow2; lia).
  assert (0 <= Z.log2 n) by apply Z.log2_nonneg.
  assert (Z.log2 n / 4 < 32) by (apply Z.div_lt_upper_bound; lia).
  assert (0 <= Z.log2 n / 4) by (apply Z.div_pos; lia).
  lia.
Qed.

End Uuid.


Section Bytes.

Lemma byte_of_small m : 0 <= m < 256 ->
  Z.of_N (Byte.to_N (match Byte.of_N (Z.to_N m) with Some b => b | None => x00 end)) = m.
Proof.
  intros H. destruct (Byte.of_N (Z.to_N m)) as [b|] eqn:E.
  - apply Byte.to_of_N in E. rewrite E. lia.
  - apply Byte.of_N_None_iff in E. lia.
Qed.

Lemma length_to_bytes k : forall n, List.length (Py.to_bytes k n) = k.
Proof.
  induction k as [|k IH]; intros n; simpl; [reflexivity|].
  rewrite length_app, IH. simpl. lia.
Qed.

Lemma from_bytes_to_bytes k : forall n acc, 0 <= n ->
  fold_left (fun a b => a * 256 + Z.of_N (Byte.to_N b)) (Py.to_bytes k n) acc
  = acc * 256 ^ Z.of_nat k + n mod 256 ^ Z.of_nat k.
Proof.
  induction k as [|k IH]; intros n acc Hn.
  - cbn. rewrite Z.mod_1_r. lia.
  - cbn [Py.to_bytes]. rewrite fold_left_app, IH by (apply Z.div_pos; lia).
    cbn [fold_left]. rewrite byte_of_small by (apply Z.mod_pos_bound; lia).
    rewrite Nat2Z.inj_succ, Z.pow_succ_r by lia.
    assert (P : 0 < 256 ^ Z.of_nat k) by (apply Z.pow_pos_nonneg; lia).
    rewrite (Z.rem_mul_r n 256 (256 ^ Z.of_nat k)) by lia.
    lia.
Qed.

Lemma of_bytes_bytes n : 0 <= n < 2 ^ 128 ->
  uuid.of_bytes (uuid.bytes {| uuid.int := n |}) = Ok {| uuid.int := n |}.
Proof.
  intros H. unfold uuid.of_bytes, uuid.bytes, Py.from_bytes. cbn [uuid.int].
  rewrite length_to_bytes, from_bytes_to_bytes by lia. cbn [Nat.eqb negb].
  change (256 ^ Z.of_nat 16) with (2 ^ 128).
  rewrite Z.mod_small by lia. now apply of_int_in_range.
Qed.

End Bytes.

Section GuidFacts.

Variable n : Z.
Hypothesis range : 0 <= n < 2 ^ 128.

Let c := canonical_lowercase_hex n.
Let u := {| uuid.int := n |}.

Lemma canonical_shape :
  length c = 32%nat /\ all_in hexdigits c = true /\ Py.int16 c = Some n.
Proof.
  split; [apply length_hex_fixed|]. split; [apply all_in_hex_fixed|].
  unfold c, canonical_lowercase_hex. rewrite int16_hex_fixed by lia.
  change (16 ^ Z.of_nat 32) with (2 ^ 128). now rewrite Z.mod_small.
Qed.

Lemma UUID_canonical : uuid_UUID (PyStr c) = Ok u.
Proof.
  destruct canonical_shape as (L & A & I). now apply of_hex_plain.
Qed.

Lemma lower_canonical : Py.lower c = c.
Proof. apply lower_hexdigits, canonical_shape. Qed.

Lemma hex_canonical : Py.format_dot32x n = c.
Proof. now apply format_dot32x_in_range. Qed.

Lemma canonical_of_UUID : GUID.canonical u = PyStr c.
Proof.
  destruct canonical_shape as (L & A & I).
  unfold GUID.canonical. change (uuid.str u) with (dashed (uuid.hex u)).
  unfold uuid.hex. cbn [uuid.int u]. rewrite hex_canonical.
  rewrite undash_dashed by assumption. now rewrite lower_canonical.
Qed.

End GuidFacts.

(** ** [uuid.UUID] and letter case *)

Section Persistence.

Lemma append_assoc (a b c : string) : (a ++ b) ++ c = a ++ (b ++ c).
Proof. induction a; simpl; congruence. Qed.

Lemma mem_append c a b : Py.mem c (a ++ b) = Py.mem c a || Py.mem c b.
Proof. induction a as [|h a IH]; simpl; [reflexivity|]. now rewrite IH, orb_assoc. Qed.

Lemma all_in_weaken keep extra s :
  all_in keep s = true -> all_in (keep ++ extra) s = true.
Proof.
  induction s as [|c s IH]; simpl; [reflexivity|].
  intros H. apply andb_true_iff in H as [Hc Hs].
  now rewrite mem_append, Hc, IH.
Qed.

Lemma prefix_split old : forall x,
  prefix old x = true -> exists rest, x = old ++ rest.
Proof.
  induction old as [|a old IH]; intros x H.
  - now exists x.
  - destruct x as [|b x]; [discriminate|]. cbn [prefix] in H.
    destruct (ascii_dec a b) as [->|]; [|discriminate].
    destruct (IH x H) as [rest ->]. now exists rest.
Qed.

Lemma prefix_append old rest : prefix old (old ++ rest) = true.
Proof.
  induction old as [|a old IH]; [apply prefix_nil|].
  cbn [append prefix]. now destruct (ascii_dec a a).
Qed.

(** Skipping the rest of a matched occurrence. *)
Lemma replace_from_skip old new a : forall rest,
  Py.replace_from (length a) old new (a ++ rest) = Py.replace_from 0 old new rest.
Proof. induction a as [|c a IH]; intros rest; [reflexivity|]. apply IH. Qed.

Lemma replace_from_match a old new rest :
  Py.replace_from 0 (String a old) new (String a old ++ rest)
  = new ++ Py.replace_from 0 (String a old) new rest.
Proof.
  cbn [append Py.replace_from].
  change (String a (old ++ rest)) with (String a old ++ rest).
  rewrite prefix_append. cbn [length Nat.sub]. rewrite Nat.sub_0_r.
  now rewrite replace_from_skip.
Qed.

Lemma replace_from_nomatch old new c x :
  prefix old (String c x) = false ->
  Py.replace_from 0 old new (String c x) = String c (Py.replace_from 0 old new x).
Proof. intros H. cbn [Py.replace_from]. now rewrite H. Qed.

(** Induction on a string along the way [replace] walks it. *)
Lemma replace_ind (a : ascii) (old : string) (P : string -> Prop) :
  P "" ->
  (forall rest, P rest -> P (String a old ++ rest)) ->
  (forall c x, prefix (String a old) (String c x) = false -> P x -> P (String c x)) ->
  forall x, P x.
Proof.
  intros H0 Hm Hn x.
  assert (G : forall n x, (length x <= n)%nat -> P x).
  { clear x. induction n as [|n IH]; intros x L.
    - destruct x; [exact H0|simpl in L; lia].
    - destruct x as [|c x]; [exact H0|].
      destruct (prefix (String a old) (String c x)) eqn:E.
      + destruct (prefix_split _ _ E) as [rest R]. rewrite R. apply Hm, IH.
        rewrite R in L. cbn [append length] in L. rewrite length_append in L. lia.
      + apply Hn; [exact E|]. apply IH. simpl in L. lia. }
  apply (G (length x)). lia.
Qed.

(** [replace old ""] only removes characters of [old]. *)
Lemma replace_removes_old a old keep : forall x,
  all_in keep (Py.replace (String a old) "" x) = true ->
  all_in (keep ++ String a old) x = true.
Proof.
  unfold Py.replace.
  apply (replace_ind a old
           (fun x => all_in keep (Py.replace_from 0 (String a old) "" x) = true ->
                     all_in (keep ++ String a old) x = true)).
  - reflexivity.
  - intros rest IH H. rewrite replace_from_match in H. cbn [append] in H.
    change (String a (old ++ rest)) with (String a old ++ rest).
    rewrite all_in_append, (IH H), andb_true_r.
    clear. generalize (String a old). intros p.
    assert (G : forall q, all_in (keep ++ q ++ p) p = true).
    { induction p as [|c p IHp]; intros q; [reflexivity|].
      cbn [all_in]. rewrite !mem_append. cbn [Py.mem]. rewrite Ascii.eqb_refl.
      cbn [orb]. rewrite !orb_true_r. cbn [andb].
      specialize (IHp (q ++ String c "")).
      now rewrite append_assoc in IHp. }
    apply (G "").
  - intros c x E IH H. rewrite (replace_from_nomatch _ _ _ _ E) in H.
    cbn [all_in] in *. apply andb_true_iff in H as [Hc Hx].
    now rewrite mem_append, Hc, (IH Hx).
Qed.

End Persistence.

Section LowerCommutes.

Ltac all_chars c := destruct c as [[] [] [] [] [] [] [] []].

Lemma lower_char_brace c : Py.mem (Py.lower_char c) "{}" = Py.mem c "{}".
Proof. all_chars c; reflexivity. Qed.

Lemma lower_char_dash c :
  (if ascii_dec "-" (Py.lower_char c) then true else false)
  = (if ascii_dec "-" c then true else false).
Proof. all_chars c; reflexivity. Qed.

Lemma hexval_lower_char c : Py.hexval (Py.lower_char c) = Py.hexval c.
Proof. all_chars c; reflexivity. Qed.

Lemma hexval_hexboth c :
  Py.mem c hexboth = match Py.hexval c with Some _ => true | None => false end.
Proof. all_chars c; reflexivity. Qed.

Lemma hexlike_not_u c :
  Py.mem c hexlike = true -> Py.lower_char c <> "u"%char.
Proof. all_chars c; intros H; try discriminate H; discriminate. Qed.

Lemma prelike_not_r c :
  Py.mem c prelike = true -> Py.lower_char c <> "r"%char.
Proof. all_chars c; intros H; try discriminate H; discriminate. Qed.

Lemma prelike_u c :
  Py.mem c prelike = true -> Py.lower_char c = "u"%char -> c = "u"%char.
Proof. all_chars c; intros H; try discriminate H; intros E; try discriminate E; reflexivity. Qed.

End LowerCommutes.

Section Commute.

Lemma lower_append a b : Py.lower (a ++ b) = Py.lower a ++ Py.lower b.
Proof. induction a as [|c a IH]; simpl; [reflexivity|]. now rewrite IH. Qed.

Lemma length_lower s : length (Py.lower s) = length s.
Proof. induction s; simpl; congruence. Qed.

Lemma int16_from_lower s : forall acc,
  Py.int16_from acc (Py.lower s) = Py.int16_from acc s.
Proof.
  induction s as [|c s IH]; intros acc; simpl; [reflexivity|].
  rewrite hexval_lower_char. destruct (Py.hexval c); [apply IH|reflexivity].
Qed.

Lemma int16_lower s : Py.int16 (Py.lower s) = Py.int16 s.
Proof. destruct s as [|c s]; [reflexivity|]. apply (int16_from_lower (String c s)). Qed.

Lemma int16_from_hexboth s : forall acc n,
  Py.int16_from acc s = Some n -> all_in hexboth s = true.
Proof.
  induction s as [|c s IH]; intros acc n H; [reflexivity|].
  cbn [Py.int16_from] in H. cbn [all_in]. rewrite hexval_hexboth.
  destruct (Py.hexval c); [|discriminate]. exact (IH _ _ H).
Qed.

Lemma int16_hexboth s n : Py.int16 s = Some n -> all_in hexboth s = true.
Proof. destruct s; [discriminate|]. apply int16_from_hexboth. Qed.

(** Dashes. *)
Lemma lower_undash x :
  Py.replace "-" "" (Py.lower x) = Py.lower (Py.replace "-" "" x).
Proof.
  unfold Py.replace. induction x as [|c x IH]; [reflexivity|].
  cbn [Py.lower Py.replace_from prefix length Nat.sub].
  pose proof (lower_char_dash c) as D. rewrite !prefix_nil.
  destruct (ascii_dec "-" (Py.lower_char c)), (ascii_dec "-" c);
    try discriminate D; cbn [append Py.lower]; now rewrite IH.
Qed.

Lemma undash_removes keep x :
  all_in keep (Py.replace "-" "" x) = true -> all_in (keep ++ "-") x = true.
Proof. apply replace_removes_old. Qed.

(** Braces. *)
Lemma lower_lstrip x : Py.lstrip "{}" (Py.lower x) = Py.lower (Py.lstrip "{}" x).
Proof.
  induction x as [|c x IH]; [reflexivity|].
  cbn [Py.lower Py.lstrip]. rewrite lower_char_brace.
  destruct (Py.mem c "{}"); [exact IH|reflexivity].
Qed.

Lemma lower_rstrip x : Py.rstrip "{}" (Py.lower x) = Py.lower (Py.rstrip "{}" x).
Proof.
  induction x as [|c x IH]; [reflexivity|].
  cbn [Py.lower Py.rstrip]. rewrite IH, lower_char_brace.
  destruct (Py.rstrip "{}" x); cbn [Py.lower]; [|reflexivity].
  now destruct (Py.mem c "{}").
Qed.

Lemma lower_strip x : Py.strip "{}" (Py.lower x) = Py.lower (Py.strip "{}" x).
Proof. unfold Py.strip. now rewrite lower_lstrip, lower_rstrip. Qed.

Lemma lstrip_removes chars keep x :
  all_in keep (Py.lstrip chars x) = true -> all_in (keep ++ chars) x = true.
Proof.
  induction x as [|c x IH]; [reflexivity|].
  cbn [Py.lstrip]. destruct (Py.mem c chars) eqn:E.
  - intros H. cbn [all_in]. now rewrite mem_append, E, orb_true_r, IH.
  - apply all_in_weaken.
Qed.

Lemma rstrip_removes chars keep x :
  all_in keep (Py.rstrip chars x) = true -> all_in (keep ++ chars) x = true.
Proof.
  induction x as [|c x IH]; [reflexivity|].
  cbn [Py.rstrip]. destruct (Py.rstrip chars x) as [|d r].
  - destruct (Py.mem c chars) eqn:E; intros H; cbn [all_in] in *.
    + now rewrite mem_append, E, orb_true_r, IH.
    + apply andb_true_iff in H as [Hc _]. now rewrite mem_append, Hc, IH.
  - intros H. cbn [all_in] in H. apply andb_true_iff in H as [Hc Hr].
    cbn [all_in]. rewrite mem_append, Hc. now apply IH.
Qed.

Lemma all_in_subset chars1 chars2 s :
  (forall c, Py.mem c chars1 = true -> Py.mem c chars2 = true) ->
  all_in chars1 s = true -> all_in chars2 s = true.
Proof.
  intros S. induction s as [|c s IH]; [reflexivity|].
  cbn [all_in]. intros H. apply andb_true_iff in H as [Hc Hs].
  now rewrite (S c Hc), IH.
Qed.

Lemma strip_removes chars keep x :
  all_in keep (Py.strip chars x) = true -> all_in (keep ++ chars) x = true.
Proof.
  intros H. apply rstrip_removes, lstrip_removes in H.
  revert H. apply all_in_subset. intros c.
  rewrite !mem_append. now destruct (Py.mem c keep), (Py.mem c chars).
Qed.

Lemma prefix_head_neq a old c x : a <> c -> prefix (String a old) (String c x) = false.
Proof. intros N. cbn [prefix]. now destruct (ascii_dec a c). Qed.

(** The [uuid:] prefix. *)
Lemma lower_replace_uuid : forall x,
  all_in hexlike (Py.replace "uuid:" "" x) = true ->
  Py.replace "uuid:" "" (Py.lower x) = Py.lower (Py.replace "uuid:" "" x).
Proof.
  unfold Py.replace.
  apply (replace_ind "u" "uid:"
           (fun x => all_in hexlike (Py.replace_from 0 "uuid:" "" x) = true ->
                     Py.replace_from 0 "uuid:" "" (Py.lower x)
                     = Py.lower (Py.replace_from 0 "uuid:" "" x))).
  - reflexivity.
  - intros rest IH H. rewrite replace_from_match in H |- *.
    rewrite lower_append. change (Py.lower "uuid:") with "uuid:".
    rewrite replace_from_match. cbn [append]. exact (IH H).
  - intros c x E IH H. rewrite (replace_from_nomatch _ _ _ _ E) in H |- *.
    cbn [all_in] in H. apply andb_true_iff in H as [Hc Hx].
    cbn [Py.lower]. rewrite replace_from_nomatch.
    + now rewrite (IH Hx).
    + apply prefix_head_neq. intros U. now apply (hexlike_not_u c Hc).
Qed.

(** The [urn:] prefix. *)
Lemma lower_replace_urn : forall x,
  all_in prelike (Py.replace "urn:" "" x) = true ->
  Py.replace "urn:" "" (Py.lower x) = Py.lower (Py.replace "urn:" "" x).
Proof.
  unfold Py.replace.
  apply (replace_ind "u" "rn:"
           (fun x => all_in prelike (Py.replace_from 0 "urn:" "" x) = true ->
                     Py.replace_from 0 "urn:" "" (Py.lower x)
                     = Py.lower (Py.replace_from 0 "urn:" "" x))).
  - reflexivity.
  - intros rest IH H. rewrite replace_from_match in H |- *.
    rewrite lower_append. change (Py.lower "urn:") with "urn:".
    rewrite replace_from_match. cbn [append]. exact (IH H).
  - intros c x E IH H. rewrite (replace_from_nomatch _ _ _ _ E) in H |- *.
    cbn [all_in] in H. apply andb_true_iff in H as [Hc Hx].
    cbn [Py.lower]. rewrite replace_from_nomatch; [now rewrite (IH Hx)|].
    cbn [prefix]. destruct (ascii_dec "u" (Py.lower_char c)) as [U|]; [|reflexivity].
    destruct x as [|c2 x]; [reflexivity|]. cbn [Py.lower prefix].
    destruct (ascii_dec "r" (Py.lower_char c2)) as [R|]; [exfalso|reflexivity].
    destruct (prefix "urn:" (String c2 x)) eqn:E2.
    + cbn [prefix] in E2. destruct (ascii_dec "u" c2) as [<-|]; discriminate.
    + rewrite (replace_from_nomatch _ _ _ _ E2) in Hx. cbn [all_in] in Hx.
      apply andb_true_iff in Hx as [Hc2 _]. now apply (prelike_not_r c2 Hc2).
Qed.

End Commute.

Section OfHex.

(** What [uuid.UUID(s)] read, when it succeeds. *)
Lemma of_hex_inv s u :
  uuid.of_hex s = Ok u ->
  let t := Py.replace "-" "" (Py.strip "{}" (Py.replace "uuid:" "" (Py.replace "urn:" "" s))) in
  length t = 32%nat /\ Py.int16 t = Some (uuid.int u) /\ 0 <= uuid.int u < 2 ^ 128.
Proof.
  intros H t. unfold uuid.of_hex in H. fold t in H.
  destruct (Nat.eqb_spec (length t) 32) as [L|]; [|discriminate].
  cbn [negb] in H. destruct (Py.int16 t) as [n|]; [|discriminate].
  unfold uuid.of_int in H.
  destruct (Z.leb_spec 0 n); [|discriminate].
  destruct (Z.ltb_spec n (Z.shiftl 1 128)) as [B|]; [|discriminate].
  cbn [andb] in H. injection H as <-. cbn [uuid.int].
  change (Z.shiftl 1 128) with (2 ^ 128) in B. auto.
Qed.

Lemma of_hex_range s u : uuid.of_hex s = Ok u -> 0 <= uuid.int u < 2 ^ 128.
Proof. intros H. apply (of_hex_inv s u H). Qed.

(** [uuid.UUID] reads a string and its lowercase form alike. *)
Lemma of_hex_lower s u : uuid.of_hex s = Ok u -> uuid.of_hex (Py.lower s) = Ok u.
Proof.
  intros H. destruct (of_hex_inv s u H) as (L & I & R).
  pose proof (int16_hexboth _ _ I) as A.
  apply undash_removes in A. apply strip_removes in A.
  pose proof (replace_removes_old "u" "uid:" _ _ A) as B.
  unfold uuid.of_hex.
  rewrite (lower_replace_urn s B), (lower_replace_uuid _ A), lower_strip, lower_undash.
  rewrite length_lower, int16_lower, L, I. cbn [Nat.eqb negb].
  destruct u as [n]. now apply of_int_in_range.
Qed.

End OfHex.


Section General.

Lemma GUID_roundtrip_text (s : string) (u : uuid.UUID) (dialect : Dialect) :
  uuid_UUID (PyStr s) = Ok u ->
  roundtrip GUID.process_bind_param GUID.process_result_value (PyStr s) dialect
    = Ok (PyStr (canonical_lowercase_hex (uuid.int u))).
Proof.
  intros H. destruct u as [n].
  assert (R : 0 <= n < 2 ^ 128) by exact (of_hex_range s _ H).
  assert (HL : uuid_UUID (PyStr (Py.lower s)) = Ok {| uuid.int := n |})
    by exact (of_hex_lower s _ H).
  pose proof (UUID_canonical n R) as E1.
  pose proof (hex_canonical n R) as E3.
  pose proof (canonical_of_UUID n R) as E4.
  pose proof (of_bytes_bytes n R) as E5.
  cbn [uuid.int].
  generalize dependent (canonical_lowercase_hex n). intros c E1 E3 E4.
  unfold roundtrip, GUID.process_bind_param, GUID.process_result_value.
  destruct (String.eqb_spec (name dialect) "postgresql") as [P|P].
  - rewrite P. cbn [py_str bind].
    change ("postgresql" =? "oracle")%string with false.
    change ("postgresql" =? "mysql")%string with false.
    cbn [isinstance_UUID]. rewrite HL. cbn [bind]. now rewrite E4.
  - destruct (String.eqb_spec (name dialect) "oracle") as [O|O].
    + rewrite H. cbn [bind isinstance_UUID uuid_UUID_bytes]. rewrite E5.
      cbn [bind]. now rewrite E4.
    + destruct (String.eqb_spec (name dialect) "mysql") as [M|M].
      * rewrite H. cbn [bind isinstance_UUID uuid_UUID_bytes]. rewrite E5.
        cbn [bind]. now rewrite E4.
      * cbn [isinstance_UUID negb]. rewrite H. cbn [bind uuid.int].
        rewrite E3. cbn [isinstance_UUID]. rewrite E1. cbn [bind]. now rewrite E4.
Qed.

Lemma all_in_dashed h :
  all_in hexdigits h = true -> all_in (hexdigits ++ "-") (dashed h) = true.
Proof.
  intros A. unfold dashed.
  assert (P : forall a b, all_in (hexdigits ++ "-") (substring a b h) = true)
    by (intros a b; now apply all_in_weaken, all_in_substring).
  repeat (rewrite all_in_append, P; cbn [andb];
          change ("-" ++ ?x) with (String "-" x); cbn [all_in]; 
          change (Py.mem "-" (hexdigits ++ "-")) with true; cbn [andb]).
  apply P.
Qed.

Lemma of_hex_dashed n : 0 <= n < 2 ^ 128 ->
  uuid.of_hex (dashed (canonical_lowercase_hex n)) = Ok {| uuid.int := n |}.
Proof.
  intros R. destruct (canonical_shape n R) as (L & A & I).
  pose proof (all_in_dashed _ A) as D.
  unfold uuid.of_hex.
  rewrite (replace_absent "u" "rn:" "") by (now apply mem_all_in with (hexdigits ++ "-")).
  rewrite (replace_absent "u" "uid:" "") by (now apply mem_all_in with (hexdigits ++ "-")).
  rewrite (strip_absent "{}" (hexdigits ++ "-") _ D).
  2:{ intros c Hc. cbn in Hc.
      repeat (apply orb_true_iff in Hc as [Hc|Hc]); try discriminate Hc;
        apply Ascii.eqb_eq in Hc; subst; reflexivity. }
  rewrite undash_dashed by assumption.
  rewrite L, I. cbn [Nat.eqb negb]. now apply of_int_in_range.
Qed.

(** A [uuid.UUID] object, on the dialects whose encode accepts one. *)
Lemma GUID_roundtrip_object (n : Z) (dialect : Dialect) :
  0 <= n < 2 ^ 128 ->
  name dialect <> "oracle" -> name dialect <> "mysql" ->
  roundtrip GUID.process_bind_param GUID.process_result_value
    (PyUUID {| uuid.int := n |}) dialect
  = Ok (PyStr (canonical_lowercase_hex n)).
Proof.
  intros R O M.
  pose proof (UUID_canonical n R) as E1.
  pose proof (hex_canonical n R) as E3.
  pose proof (canonical_of_UUID n R) as E4.
  assert (E6 : uuid_UUID (PyStr (Py.lower (uuid.str {| uuid.int := n |})))
               = Ok {| uuid.int := n |}).
  { apply of_hex_lower.
    change (uuid.str {| uuid.int := n |}) with (dashed (Py.format_dot32x n)).
    rewrite E3. now apply of_hex_dashed. }
  generalize dependent (canonical_lowercase_hex n). intros c E1 E3 E4.
  unfold roundtrip, GUID.process_bind_param, GUID.process_result_value.
  apply String.eqb_neq in O, M. rewrite O, M.
  destruct (name dialect =? "postgresql")%string.
  - cbn [bind py_str isinstance_UUID]. rewrite E6. cbn [bind]. now rewrite E4.
  - cbn [isinstance_UUID negb get_int bind uuid.int]. rewrite E3.
    cbn [isinstance_UUID]. rewrite E1. cbn [bind]. now rewrite E4.
Qed.

End General.

(** ** GUID: the decoded form is canonical *)

(** X27.  For every 128-bit identifier [n] and every dialect (postgresql,
    oracle, mysql or any other name), encoding [n] and decoding the
    result gives the canonical form of [n]: 32 lowercase hexadecimal
    digits without dashes, which read as [n].  This holds for the
    canonical form itself as input and for every other text [uuid.UUID]
    reads as [n] (uppercase, dashed, braced, prefixed).  The result does
    not mention the dialect, so all backends agree on it. *)
Theorem GUID_decode_encode_canonical (n : Z) (dialect : Dialect) :
  0 <= n < 2 ^ 128 ->
  let c := canonical_lowercase_hex n in
  (length c = 32%nat /\ all_in hexdigits c = true /\ Py.int16 c = Some n) /\
  roundtrip GUID.process_bind_param GUID.process_result_value (PyStr c) dialect
    = Ok (PyStr c) /\
  (forall s : string,
     uuid_UUID (PyStr s) = Ok {| uuid.int := n |} ->
     roundtrip GUID.process_bind_param GUID.process_result_value (PyStr s) dialect
       = Ok (PyStr c)).
Proof.
  intros R c. split; [now apply canonical_shape|]. split.
  - exact (GUID_roundtrip_text c _ dialect (UUID_canonical n R)).
  - intros s H. exact (GUID_roundtrip_text s _ dialect H).
Qed.

(** The identifier 550e8400e29b41d4a716446655440000 on the raw-byte
    backend, from its canonical form and from an uppercase dashed one. *)
Lemma GUID_decode_encode_canonical_witness :
  let n := 113059749145936325402354257176981405696 in
  0 <= n < 2 ^ 128 /\
  roundtrip GUID.process_bind_param GUID.process_result_value
    (PyStr (canonical_lowercase_hex n)) oracle
  = Ok (PyStr (canonical_lowercase_hex n)) /\
  roundtrip GUID.process_bind_param GUID.process_result_value
    (PyStr "550E8400-E29B-41D4-A716-446655440000") oracle
  = Ok (PyStr (canonical_lowercase_hex n)).
Proof.
  intros n.
  assert (R : 0 <= n < 2 ^ 128) by (unfold n; lia).
  split; [exact R|].
  destruct (GUID_decode_encode_canonical n oracle R) as (_ & Hc & Hs).
  split; [exact Hc|].
  apply Hs. vm_compute. reflexivity.
Defined.

(** ** GUID: the shapes [process_bind_param] accepts *)

(** On the dialects that go through [str(value)] or test
    [isinstance(value, uuid.UUID)], a [uuid.UUID] object is encoded. *)
Lemma GUID_bind_UUID_object_accepted (u : uuid.UUID) (dialect : Dialect) :
  (name dialect =? "oracle")%string = false ->
  (name dialect =? "mysql")%string = false ->
  GUID.process_bind_param (PyUUID u) dialect =
  Ok (PyStr (if (name dialect =? "postgresql")%string
             then Py.lower (uuid.str u)
             else Py.format_dot32x (uuid.int u))).
Proof.
  intros O M. unfold GUID.process_bind_param. rewrite O, M.
  now destruct (name dialect =? "postgresql")%string.
Qed.

(** C1.  An identifier handed over as an already parsed [uuid.UUID]
    object does not round-trip on oracle and on mysql: the encode raises
    [AttributeError] (see C2), so there is nothing to decode.  On the
    other dialects the same object round-trips ([GUID_roundtrip_object]),
    and text round-trips on all of them. *)
Theorem GUID_roundtrip_object_raises (u : uuid.UUID) :
  roundtrip GUID.process_bind_param GUID.process_result_value (PyUUID u) oracle
    = Raise AttributeError /\
  roundtrip GUID.process_bind_param GUID.process_result_value (PyUUID u) mysql
    = Raise AttributeError.
Proof. split; reflexivity. Qed.

(** C2.  What [process_bind_param] does with an already parsed
    [uuid.UUID] object: on oracle and on mysql it calls
    [uuid.UUID(value)], whose first step [value.replace] the object does
    not have, and raises [AttributeError]; postgresql and the fall-back
    branch encode the same object. *)
Theorem GUID_bind_UUID_object_raises (u : uuid.UUID) :
  GUID.process_bind_param (PyUUID u) oracle = Raise AttributeError /\
  GUID.process_bind_param (PyUUID u) mysql = Raise AttributeError /\
  GUID.process_bind_param (PyUUID u) postgresql = Ok (PyStr (Py.lower (uuid.str u))) /\
  GUID.process_bind_param (PyUUID u) sqlite = Ok (PyStr (Py.format_dot32x (uuid.int u))).
Proof. repeat split. Qed.

(** ** Column shapes *)

(** What the three methods spelled [load_dialect_imp] return when called. *)
Lemma load_dialect_imp_255 (dialect : Dialect) :
  BooleanString.load_dialect_imp dialect = sa.String (Some 255) /\
  InternalAccountString.load_dialect_imp dialect = sa.String (Some 255) /\
  InternalScopeString.load_dialect_imp dialect = sa.String (Some 255).
Proof. repeat split. Qed.

(** C3.  The column shape of the tri-state boolean and of the two identity
    decorators: no method of theirs is named [load_dialect_impl], so the
    shape is the inherited [self.impl], a [String] of the length the
    decorator was constructed with (none for [C()]), under every dialect;
    the [String(255)] of their [load_dialect_imp] is not consulted.  GUID
    and JSON, whose method carries the right name, do get the shape it
    returns. *)
Theorem shape_of_misnamed_hooks (length : option Z) (dialect : Dialect) :
  TypeDecorator.physical_shape (new cls.BooleanString length) dialect = sa.String length /\
  TypeDecorator.physical_shape (new cls.InternalAccountString length) dialect
    = sa.String length /\
  TypeDecorator.physical_shape (new cls.InternalScopeString length) dialect
    = sa.String length /\
  TypeDecorator.physical_shape (new cls.BooleanString None) dialect
    <> sa.String (Some 255) /\
  TypeDecorator.physical_shape (new cls.GUID length) dialect
    = GUID.load_dialect_impl dialect /\
  TypeDecorator.physical_shape (new cls.JSON length) dialect
    = JSON.load_dialect_impl dialect.
Proof. repeat split. discriminate. Qed.

(** ** Identity decorators *)

(** C4.  Under every dialect a bare [str] handed to the encode of either
    identity decorator raises [InvalidType]; nothing is stored.  A typed
    wrapper is encoded to its internal representation. *)
Theorem identity_bind_rejects_str (s : string) (class_name : string)
    (internal external : pyvalue) (dialect : Dialect) :
  InternalAccountString.process_bind_param (PyStr s) dialect
    = Raise (InvalidType "Cannot insert to db. Expected InternalAccount, got string type.") /\
  InternalScopeString.process_bind_param (PyStr s) dialect
    = Raise (InvalidType "Cannot insert to db. Expected InternalScope, got string type.") /\
  InternalAccountString.process_bind_param (wrapper class_name internal external) dialect
    = Ok internal /\
  InternalScopeString.process_bind_param (wrapper class_name internal external) dialect
    = Ok internal.
Proof. repeat split. Qed.

(** C5.  Decoding a stored internal string builds the wrapper with
    [from_external=False]: the wrapper's internal representation is the
    stored string itself, and the resolver was invoked on nothing. *)
Theorem identity_result_bypasses_resolution (ns : Namespace) (s : string)
    (dialect : Dialect) :
  InternalAccountString.process_result_value ns (PyStr s) dialect
    = (Ok (wrapper "InternalAccount" (PyStr s) (render ns (PyStr s))), []) /\
  InternalScopeString.process_result_value ns (PyStr s) dialect
    = (Ok (wrapper "InternalScope" (PyStr s) (render ns (PyStr s))), []) /\
  InternalAccountString.process_result_value ns (PyStr s) dialect
    = (let (w, calls) := InternalAccount ns (PyStr s) false in (Ok w, calls)) /\
  get_internal (wrapper "InternalAccount" (PyStr s) (render ns (PyStr s))) = Ok (PyStr s) /\
  get_internal (wrapper "InternalScope" (PyStr s) (render ns (PyStr s))) = Ok (PyStr s).
Proof. repeat split. Qed.

(** C9.  [coerce_compared_value] of both identity decorators: for
    [like_op] and [notlike_op] the plain [String()] type, for every other
    operator the decorator itself. *)
Theorem identity_coerce_compared_value (self : decorator) (op : sa.operator)
    (value : pyvalue) :
  (op = sa.like_op \/ op = sa.notlike_op ->
     InternalAccountString.coerce_compared_value self op value = Plain (sa.String None) /\
     InternalScopeString.coerce_compared_value self op value = Plain (sa.String None)) /\
  (op <> sa.like_op -> op <> sa.notlike_op ->
     InternalAccountString.coerce_compared_value self op value = Decorated self /\
     InternalScopeString.coerce_compared_value self op value = Decorated self).
Proof.
  unfold InternalAccountString.coerce_compared_value,
    InternalScopeString.coerce_compared_value, sa.op_in.
  cbn [existsb]. split.
  - intros [-> | ->]; split; reflexivity.
  - intros L N.
    destruct (sa.operator_eq_dec op sa.like_op); [contradiction|].
    destruct (sa.operator_eq_dec op sa.notlike_op); [contradiction|].
    split; reflexivity.
Qed.

Lemma identity_coerce_compared_value_witness :
  InternalAccountString.coerce_compared_value (new cls.InternalAccountString None)
    sa.notlike_op (PyStr "a%") = Plain (sa.String None) /\
  InternalScopeString.coerce_compared_value (new cls.InternalScopeString None)
    sa.ilike_op (PyStr "a%") = Decorated (new cls.InternalScopeString None).
Proof.
  split.
  - apply (proj1 (identity_coerce_compared_value
                    (new cls.InternalAccountString None) sa.notlike_op (PyStr "a%"))).
    right; reflexivity.
  - apply (proj2 (identity_coerce_compared_value
                    (new cls.InternalScopeString None) sa.ilike_op (PyStr "a%")));
      discriminate.
Defined.

(** ** BooleanString *)

Lemma eq_str_lower_false (s t : string) :
  Py.lower s <> t -> eq_str (PyStr (Py.lower s)) t = false.
Proof. intros H. now apply String.eqb_neq. Qed.

Lemma eq_str_lower_true (s t : string) :
  Py.lower s = t -> eq_str (PyStr (Py.lower s)) t = true.
Proof. intros H. now apply String.eqb_eq. Qed.

(** A string that is neither literal goes through each hook unchanged. *)
Lemma BooleanString_bind_other (s : string) (dialect : Dialect) :
  ~ caseless_eq s "true" -> ~ caseless_eq s "false" ->
  BooleanString.process_bind_param (PyStr s) dialect = Ok (PyStr s).
Proof.
  unfold caseless_eq. cbn [Py.lower Py.lower_char Py.is_upper]. intros T F.
  unfold BooleanString.process_bind_param.
  cbn [isinstance_bool isinstance_str py_lower bind py_str].
  now rewrite (eq_str_lower_false s "true" T), (eq_str_lower_false s "false" F).
Qed.

Lemma BooleanString_result_other (s : string) (dialect : Dialect) :
  ~ caseless_eq s "true" -> ~ caseless_eq s "false" ->
  BooleanString.process_result_value (PyStr s) dialect = Ok (PyStr s).
Proof.
  unfold caseless_eq. cbn [Py.lower Py.lower_char Py.is_upper]. intros T F.
  unfold BooleanString.process_result_value. cbn [py_lower bind].
  now rewrite (eq_str_lower_false s "true" T), (eq_str_lower_false s "false" F).
Qed.

(** C6.  A string that is not, up to case, ["true"] or ["false"] comes
    back from encode followed by decode as it went in, under every
    dialect. *)
Theorem BooleanString_passthrough (s : string) (dialect : Dialect) :
  ~ caseless_eq s "true" -> ~ caseless_eq s "false" ->
  roundtrip BooleanString.process_bind_param BooleanString.process_result_value
    (PyStr s) dialect = Ok (PyStr s).
Proof.
  intros T F. unfold roundtrip.
  rewrite (BooleanString_bind_other s dialect T F). cbn [bind].
  now apply BooleanString_result_other.
Qed.

Lemma BooleanString_passthrough_witness :
  roundtrip BooleanString.process_bind_param BooleanString.process_result_value
    (PyStr "Maybe") oracle = Ok (PyStr "Maybe").
Proof.
  apply (BooleanString_passthrough "Maybe" oracle); vm_compute; discriminate.
Defined.

(** C8.  Under every dialect a boolean [b] is encoded to its lowercase
    literal, a string equal to that literal up to case is encoded to the
    literal too, and decoded to [b]. *)
Theorem BooleanString_literals (b : bool) (s : string) (dialect : Dialect) :
  caseless_eq s (literal b) ->
  BooleanString.process_bind_param (PyBool b) dialect = Ok (PyStr (literal b)) /\
  BooleanString.process_bind_param (PyStr s) dialect = Ok (PyStr (literal b)) /\
  BooleanString.process_result_value (PyStr s) dialect = Ok (PyBool b).
Proof.
  intros E. split; [now destruct b|].
  unfold BooleanString.process_bind_param, BooleanString.process_result_value.
  cbn [isinstance_bool isinstance_str py_lower bind py_str].
  unfold caseless_eq in E. destruct b; cbn in E.
  - rewrite (eq_str_lower_true s "true" E). now split.
  - rewrite (eq_str_lower_false s "true") by (rewrite E; discriminate).
    rewrite (eq_str_lower_true s "false" E). now split.
Qed.

Lemma BooleanString_literals_witness :
  (BooleanString.process_bind_param (PyBool true) mysql = Ok (PyStr "true") /\
   BooleanString.process_bind_param (PyStr "TRUE") mysql = Ok (PyStr "true") /\
   BooleanString.process_result_value (PyStr "TRUE") mysql = Ok (PyBool true)) /\
  (BooleanString.process_bind_param (PyBool false) mysql = Ok (PyStr "false") /\
   BooleanString.process_bind_param (PyStr "False") mysql = Ok (PyStr "false") /\
   BooleanString.process_result_value (PyStr "False") mysql = Ok (PyBool false)).
Proof.
  split.
  - apply (BooleanString_literals true "TRUE" mysql). reflexivity.
  - apply (BooleanString_literals false "False" mysql). reflexivity.
Defined.

(** ** Null *)



(** ** Listing the distances *)

Section ListingFacts.

Context {Distance dict : Type}.
Variable to_dict : Distance -> dict.

Lemma execute_all_select (session : distance.Session Distance) :
  distance.execute_all Distance session (distance.select Distance)
  = distance.rows Distance session.
Proof.
  unfold distance.execute_all. cbn [distance.select distance.whereclauses forallb].
  induction (distance.rows Distance session) as [|r l IH]; cbn; congruence.
Qed.

(** C10.  Whatever [filter_] is, a non-empty dictionary included,
    [list_distances] returns what it returns without a filter: the
    [to_dict] of every row of the store, in the store's order. *)
Theorem list_distances_ignores_filter (filter_ : distance.filter_dict)
    (session : distance.Session Distance) :
  distance.list_distances Distance dict to_dict filter_ session
    = distance.list_distances Distance dict to_dict None session /\
  distance.list_distances Distance dict to_dict filter_ session
    = map to_dict (distance.rows Distance session).
Proof.
  unfold distance.list_distances. now rewrite execute_all_select.
Qed.

End ListingFacts.

(* ================================================================== *)
(** * Further properties of the code *)

(** ** GUID *)

Section MoreBytes.

Lemma from_bytes_snoc bs b :
  Py.from_bytes (bs ++ [b]) = Py.from_bytes bs * 256 + Z.of_N (Byte.to_N b).
Proof. unfold Py.from_bytes. now rewrite fold_left_app. Qed.

Lemma byte_range b : 0 <= Z.of_N (Byte.to_N b) < 256.
Proof. pose proof (Byte.to_N_bounded b). lia. Qed.

Lemma from_bytes_range bs :
  0 <= Py.from_bytes bs < 256 ^ Z.of_nat (List.length bs).
Proof.
  induction bs as [|b bs IH] using rev_ind.
  - cbn. lia.
  - rewrite from_bytes_snoc, length_app. cbn [List.length].
    replace (Z.of_nat (List.length bs + 1)) with (Z.succ (Z.of_nat (List.length bs))) by lia.
    rewrite Z.pow_succ_r by lia. pose proof (byte_range b). lia.
Qed.

Lemma to_bytes_from_bytes bs :
  Py.to_bytes (List.length bs) (Py.from_bytes bs) = bs.
Proof.
  induction bs as [|b bs IH] using rev_ind; [reflexivity|].
  rewrite from_bytes_snoc, length_app. cbn [List.length].
  rewrite Nat.add_1_r. cbn [Py.to_bytes].
  pose proof (byte_range b) as B.
  replace ((Py.from_bytes bs * 256 + Z.of_N (Byte.to_N b)) / 256) with (Py.from_bytes bs).
  2:{ apply Z.div_unique with (Z.of_N (Byte.to_N b)); lia. }
  replace ((Py.from_bytes bs * 256 + Z.of_N (Byte.to_N b)) mod 256)
    with (Z.of_N (Byte.to_N b)).
  2:{ apply Z.mod_unique with (Py.from_bytes bs); lia. }
  rewrite IH, N2Z.id, Byte.of_to_N. reflexivity.
Qed.

Lemma of_int_inv n u : uuid.of_int n = Ok u -> u = {| uuid.int := n |} /\ 0 <= n < 2 ^ 128.
Proof.
  unfold uuid.of_int. change (Z.shiftl 1 128) with (2 ^ 128).
  destruct (Z.leb_spec 0 n) as [A|A]; [|discriminate].
  destruct (Z.ltb_spec n (2 ^ 128)) as [B|B]; [|discriminate].
  cbn [andb]. intros E. injection E as <-. split; [reflexivity|lia].
Qed.

Lemma of_bytes_16 bs : List.length bs = 16%nat ->
  uuid.of_bytes bs = Ok {| uuid.int := Py.from_bytes bs |} /\
  0 <= Py.from_bytes bs < 2 ^ 128.
Proof.
  intros L. pose proof (from_bytes_range bs) as R. rewrite L in R.
  change (256 ^ Z.of_nat 16) with (2 ^ 128) in R. split; [|exact R].
  unfold uuid.of_bytes. rewrite L. cbn [Nat.eqb negb]. now apply of_int_in_range.
Qed.

Lemma of_bytes_range bs u : uuid.of_bytes bs = Ok u -> 0 <= uuid.int u < 2 ^ 128.
Proof.
  unfold uuid.of_bytes. destruct (negb _); [discriminate|].
  intros H. apply of_int_inv in H as [-> R]. exact R.
Qed.

End MoreBytes.

Section GuidExtras.

(** X1.  For a text [uuid.UUID] reads as [n], what [process_bind_param] returns
    fits the column [load_dialect_impl] declares for the same dialect: the
    lowercased text for the native UUID column, sixteen bytes that read as
    [n] for RAW(16) and BINARY(16), the 32 canonical digits for CHAR(32). *)
Theorem GUID_bind_fits_column (s : string) (n : Z) (dialect : Dialect) :
  uuid_UUID (PyStr s) = Ok {| uuid.int := n |} ->
  match GUID.load_dialect_impl dialect with
  | sa.UUID =>
      GUID.process_bind_param (PyStr s) dialect = Ok (PyStr (Py.lower s))
  | sa.RAW len | sa.BINARY len =>
      exists bs, GUID.process_bind_param (PyStr s) dialect = Ok (PyBytes bs) /\
                 Z.of_nat (List.length bs) = len /\ Py.from_bytes bs = n
  | sa.CHAR (Some len) =>
      exists c, GUID.process_bind_param (PyStr s) dialect = Ok (PyStr c) /\
                Z.of_nat (length c) = len /\ c = canonical_lowercase_hex n
  | _ => False
  end.
Proof.
  intros H. pose proof (of_hex_range s _ H) as R. cbn [uuid.int] in R.
  unfold GUID.load_dialect_impl, GUID.process_bind_param, sa.type_descriptor.
  destruct (name dialect =? "postgresql")%string; [reflexivity|].
  assert (B : exists bs, Ok (PyBytes (uuid.bytes {| uuid.int := n |})) = Ok (PyBytes bs) /\
                         Z.of_nat (List.length bs) = 16 /\ Py.from_bytes bs = n).
  { exists (uuid.bytes {| uuid.int := n |}). split; [reflexivity|].
    unfold uuid.bytes. cbn [uuid.int]. rewrite length_to_bytes. split; [reflexivity|].
    unfold Py.from_bytes. rewrite from_bytes_to_bytes by lia.
    change (256 ^ Z.of_nat 16) with (2 ^ 128). rewrite Z.mod_small; lia. }
  destruct (name dialect =? "oracle")%string; [rewrite H; exact B|].
  destruct (name dialect =? "mysql")%string; [rewrite H; exact B|].
  cbn [isinstance_UUID negb]. rewrite H. cbn [bind uuid.int].
  rewrite (hex_canonical n R). exists (canonical_lowercase_hex n).
  split; [reflexivity|]. split; [|reflexivity].
  unfold canonical_lowercase_hex. now rewrite length_hex_fixed.
Qed.

End GuidExtras.

Section GuidExtras2.

(** Strings of hexadecimal digits go through [uuid.UUID]'s clean-up
    unchanged. *)
Lemma pipeline_hexboth s : all_in hexboth s = true ->
  Py.replace "-" "" (Py.strip "{}" (Py.replace "uuid:" "" (Py.replace "urn:" "" s))) = s.
Proof.
  intros A.
  rewrite (replace_absent "u" "rn:" "" s) by (now apply mem_all_in with hexboth).
  rewrite (replace_absent "u" "uid:" "" s) by (now apply mem_all_in with hexboth).
  rewrite (strip_absent "{}" hexboth s A).
  2:{ intros c Hc. cbn in Hc.
      repeat (apply orb_true_iff in Hc as [Hc|Hc]); try discriminate Hc;
        apply Ascii.eqb_eq in Hc; subst; reflexivity. }
  now rewrite (replace_absent "-" "" "" s) by (now apply mem_all_in with hexboth).
Qed.

Lemma of_hex_wrong_length s :
  all_in hexboth s = true -> length s <> 32%nat -> uuid.of_hex s = Raise ValueError.
Proof.
  intros A L. unfold uuid.of_hex. rewrite (pipeline_hexboth s A).
  apply Nat.eqb_neq in L. now rewrite L.
Qed.

(** X2.  A string of hexadecimal digits that is not 32 long is refused with
    [ValueError] by the encode of every dialect but postgresql, whose
    encode does not parse and returns the lowercased text; the decode of
    the text dialects refuses it as well. *)
Theorem GUID_wrong_length (s : string) (dialect : Dialect) :
  all_in hexboth s = true -> length s <> 32%nat ->
  GUID.process_bind_param (PyStr s) dialect
    = (if (name dialect =? "postgresql")%string then Ok (PyStr (Py.lower s))
       else Raise ValueError) /\
  (name dialect <> "oracle" -> name dialect <> "mysql" ->
   GUID.process_result_value (PyStr s) dialect = Raise ValueError).
Proof.
  intros A L. pose proof (of_hex_wrong_length s A L) as E.
  unfold GUID.process_bind_param, GUID.process_result_value.
  cbn [isinstance_UUID negb uuid_UUID py_str]. rewrite E. cbn [bind].
  split.
  - destruct (name dialect =? "postgresql")%string; [reflexivity|].
    destruct (name dialect =? "oracle")%string; [reflexivity|].
    now destruct (name dialect =? "mysql")%string.
  - intros O M. apply String.eqb_neq in O, M. now rewrite O, M.
Qed.

Lemma GUID_wrong_length_witness :
  GUID.process_bind_param (PyStr "550e8400") sqlite = Raise ValueError /\
  GUID.process_bind_param (PyStr "550e8400") postgresql = Ok (PyStr "550e8400") /\
  GUID.process_result_value (PyStr "550e8400") postgresql = Raise ValueError.
Proof.
  assert (A : all_in hexboth "550e8400" = true) by reflexivity.
  assert (L : length "550e8400" <> 32%nat) by discriminate.
  split; [|split].
  - exact (proj1 (GUID_wrong_length "550e8400" sqlite A L)).
  - exact (proj1 (GUID_wrong_length "550e8400" postgresql A L)).
  - apply (proj2 (GUID_wrong_length "550e8400" postgresql A L)); discriminate.
Defined.

(** X3.  On oracle and mysql the decode of a [bytes] value gives the canonical
    form of the integer the bytes spell when there are sixteen of them, and
    raises [ValueError] for any other length. *)
Theorem GUID_result_of_bytes (bs : list byte) (dialect : Dialect) :
  name dialect = "oracle" \/ name dialect = "mysql" ->
  GUID.process_result_value (PyBytes bs) dialect
  = (if Nat.eqb (List.length bs) 16
     then Ok (PyStr (canonical_lowercase_hex (Py.from_bytes bs)))
     else Raise ValueError).
Proof.
  intros D.
  assert (E : (u <- uuid_UUID_bytes (PyBytes bs) ;; Ok (GUID.canonical u))
              = (if Nat.eqb (List.length bs) 16
                 then Ok (PyStr (canonical_lowercase_hex (Py.from_bytes bs)))
                 else Raise ValueError)).
  { cbn [uuid_UUID_bytes]. destruct (Nat.eqb_spec (List.length bs) 16) as [L|L].
    - destruct (of_bytes_16 bs L) as [-> R]. cbn [bind].
      now rewrite (canonical_of_UUID _ R).
    - unfold uuid.of_bytes. apply Nat.eqb_neq in L. now rewrite L. }
  unfold GUID.process_result_value. cbn [isinstance_UUID].
  destruct D as [-> | ->]; exact E.
Qed.

Lemma GUID_result_of_bytes_witness :
  GUID.process_result_value (PyBytes [x55; x0e]) mysql = Raise ValueError.
Proof. exact (GUID_result_of_bytes [x55; x0e] mysql (or_intror eq_refl)). Defined.

(** X4.  On oracle and mysql, reading sixteen stored bytes and writing the
    result back stores the same sixteen bytes. *)
Theorem GUID_bytes_stored_roundtrip (bs : list byte) (dialect : Dialect) :
  name dialect = "oracle" \/ name dialect = "mysql" ->
  List.length bs = 16%nat ->
  roundtrip GUID.process_result_value GUID.process_bind_param (PyBytes bs) dialect
  = Ok (PyBytes bs).
Proof.
  intros D L. unfold roundtrip. rewrite (GUID_result_of_bytes bs dialect D), L.
  cbn [Nat.eqb bind].
  destruct (of_bytes_16 bs L) as [_ R].
  unfold GUID.process_bind_param.
  rewrite (UUID_canonical _ R). cbn [bind]. unfold uuid.bytes. cbn [uuid.int].
  replace (Py.to_bytes 16 (Py.from_bytes bs)) with bs
    by (rewrite <- L; symmetry; apply to_bytes_from_bytes).
  destruct D as [-> | ->]; reflexivity.
Qed.

End GuidExtras2.

Section GuidExtras3.

(** X5.  Whatever [process_result_value] returns is [None] (for [None]) or the
    canonical form of some 128-bit integer: 32 lowercase hexadecimal
    digits. *)
Theorem GUID_result_is_canonical (value r : pyvalue) (dialect : Dialect) :
  wellformed value ->
  GUID.process_result_value value dialect = Ok r ->
  (value = PyNone /\ r = PyNone) \/
  exists n, 0 <= n < 2 ^ 128 /\ r = PyStr (canonical_lowercase_hex n) /\
            length (canonical_lowercase_hex n) = 32%nat /\
            all_in hexdigits (canonical_lowercase_hex n) = true.
Proof.
  intros W H.
  assert (K : forall u, 0 <= uuid.int u < 2 ^ 128 -> Ok (GUID.canonical u) = Ok r ->
              exists n, 0 <= n < 2 ^ 128 /\ r = PyStr (canonical_lowercase_hex n) /\
                        length (canonical_lowercase_hex n) = 32%nat /\
                        all_in hexdigits (canonical_lowercase_hex n) = true).
  { intros [n] R E. cbn [uuid.int] in R. rewrite (canonical_of_UUID n R) in E.
    injection E as <-. exists n. destruct (canonical_shape n R) as (L & A & _). auto. }
  assert (G : forall (f : pyvalue -> result uuid.UUID),
              (forall u, f value = Ok u -> 0 <= uuid.int u < 2 ^ 128) ->
              (u <- (if isinstance_UUID value then as_UUID value else f value) ;;
               Ok (GUID.canonical u)) = Ok r ->
              exists n, 0 <= n < 2 ^ 128 /\ r = PyStr (canonical_lowercase_hex n) /\
                        length (canonical_lowercase_hex n) = 32%nat /\
                        all_in hexdigits (canonical_lowercase_hex n) = true).
  { intros f F E. destruct value as [ | b | z | s | bs | u0 | cl re ats ];
      cbn [isinstance_UUID as_UUID] in E;
      try (destruct (f _) as [u'|]; cbn [bind] in E; [|discriminate E];
           exact (K u' (F u' eq_refl) E)).
    exact (K u0 W E). }
  assert (Fb : forall u, uuid_UUID_bytes value = Ok u -> 0 <= uuid.int u < 2 ^ 128).
  { intros u. destruct value; try discriminate; cbn [uuid_UUID_bytes].
    - destruct (Nat.eqb _ _); discriminate.
    - apply of_bytes_range. }
  assert (Fh : forall u, uuid_UUID value = Ok u -> 0 <= uuid.int u < 2 ^ 128).
  { intros u. destruct value; try discriminate; cbn [uuid_UUID]. apply of_hex_range. }
  unfold GUID.process_result_value in H.
  destruct value; try (right; revert H;
    destruct (name dialect =? "oracle")%string; [apply (G _ Fb)|];
    destruct (name dialect =? "mysql")%string; [apply (G _ Fb)|apply (G _ Fh)]).
  left. injection H as <-. auto.
Qed.

Lemma GUID_result_is_canonical_witness :
  exists n, 0 <= n < 2 ^ 128 /\
    GUID.process_result_value (PyStr "{550E8400-E29B-41D4-A716-446655440000}") postgresql
    = Ok (PyStr (canonical_lowercase_hex n)).
Proof.
  destruct (GUID_result_is_canonical
              (PyStr "{550E8400-E29B-41D4-A716-446655440000}")
              (PyStr "550e8400e29b41d4a716446655440000") postgresql I eq_refl)
    as [[D _] | (n & R & E & _)]; [discriminate D|].
  exists n. split; [exact R|]. rewrite <- E. reflexivity.
Defined.

(** X6.  A [uuid.UUID] object handed back by the driver is decoded to its
    canonical form under every dialect. *)
Theorem GUID_result_of_object (n : Z) (dialect : Dialect) :
  0 <= n < 2 ^ 128 ->
  GUID.process_result_value (PyUUID {| uuid.int := n |}) dialect
  = Ok (PyStr (canonical_lowercase_hex n)).
Proof.
  intros R. unfold GUID.process_result_value. cbn [isinstance_UUID as_UUID bind].
  rewrite (canonical_of_UUID n R).
  destruct (name dialect =? "oracle")%string; [reflexivity|].
  now destruct (name dialect =? "mysql")%string.
Qed.

Lemma GUID_result_of_object_witness :
  GUID.process_result_value (PyUUID {| uuid.int := 255 |}) oracle
  = Ok (PyStr (canonical_lowercase_hex 255)).
Proof. apply (GUID_result_of_object 255 oracle). lia. Defined.

End GuidExtras3.

(** ** BooleanString *)

Section BooleanExtras.

Lemma literal_caseless b c : caseless_eq (literal b) (literal c) -> b = c.
Proof. destruct b, c; unfold caseless_eq; cbn; intros H; try reflexivity; discriminate H. Qed.

(** X9.  What is stored for a boolean or a string is never a case variant of a
    literal: text equal to [true] or [false] up to case is the lowercase
    literal itself.  (Other objects are stored as their [str()], which is
    not normalised.) *)
Theorem BooleanString_bind_normal (value : pyvalue) (s : string) (b : bool)
    (dialect : Dialect) :
  isinstance_bool value || isinstance_str value = true ->
  BooleanString.process_bind_param value dialect = Ok (PyStr s) ->
  caseless_eq s (literal b) -> s = literal b.
Proof.
  intros T H C. unfold BooleanString.process_bind_param in H.
  destruct value as [ | v | z | t | bs | u0 | cl re ats ]; try discriminate T.
  - cbn [isinstance_bool truthy] in H.
    assert (E : s = literal v) by (destruct v; now injection H as <-).
    rewrite E in C |- *. f_equal. now apply literal_caseless.
  - cbn [isinstance_bool isinstance_str py_lower bind py_str eq_str] in H.
    destruct (String.eqb_spec (Py.lower t) "true") as [Et|Et].
    { injection H as <-. now rewrite <- (literal_caseless true b C). }
    destruct (String.eqb_spec (Py.lower t) "false") as [Ef|Ef].
    { injection H as <-. now rewrite <- (literal_caseless false b C). }
    injection H as <-. unfold caseless_eq in C. destruct b; cbn in C; contradiction.
Qed.

Lemma BooleanString_bind_normal_witness :
  BooleanString.process_bind_param (PyStr "FALSE") mysql = Ok (PyStr "false") /\
  "false" = literal false.
Proof.
  split; [reflexivity|].
  apply (BooleanString_bind_normal (PyStr "FALSE") "false" false mysql); reflexivity.
Defined.

(** X10.  A boolean comes back from encode followed by decode as itself. *)
Theorem BooleanString_bool_roundtrip (b : bool) (dialect : Dialect) :
  roundtrip BooleanString.process_bind_param BooleanString.process_result_value
    (PyBool b) dialect = Ok (PyBool b).
Proof. now destruct b. Qed.

(** X11.  Reading stored text and writing it back: a case variant of a literal
    is rewritten to the lowercase literal, any other text is written back
    as it is. *)
Theorem BooleanString_stored_roundtrip (t : string) (dialect : Dialect) :
  roundtrip BooleanString.process_result_value BooleanString.process_bind_param
    (PyStr t) dialect
  = Ok (PyStr (if (Py.lower t =? "true")%string then "true"
               else if (Py.lower t =? "false")%string then "false"
               else t)).
Proof.
  unfold roundtrip, BooleanString.process_result_value. cbn [py_lower bind eq_str].
  destruct (String.eqb_spec (Py.lower t) "true") as [Et|Et]; [reflexivity|].
  destruct (String.eqb_spec (Py.lower t) "false") as [Ef|Ef]; [reflexivity|].
  cbn [bind]. apply BooleanString_bind_other; assumption.
Qed.

End BooleanExtras.

(** ** Identity decorators *)

Section IdentityExtras.

(** X12.  Both identity encodes raise [InvalidType] for a [str] and for
    nothing else: whenever they raise for a value that is not a [str]
    (a value without an [internal] attribute), what they raise is
    [AttributeError]. *)
Theorem identity_InvalidType_iff (value : pyvalue) (dialect : Dialect) :
  ((exists msg, InternalAccountString.process_bind_param value dialect
                = Raise (InvalidType msg)) <-> isinstance_str value = true) /\
  ((exists msg, InternalScopeString.process_bind_param value dialect
                = Raise (InvalidType msg)) <-> isinstance_str value = true) /\
  (forall e, isinstance_str value = false ->
             InternalAccountString.process_bind_param value dialect = Raise e ->
             e = AttributeError) /\
  (forall e, isinstance_str value = false ->
             InternalScopeString.process_bind_param value dialect = Raise e ->
             e = AttributeError).
Proof.
  unfold InternalAccountString.process_bind_param, InternalScopeString.process_bind_param.
  split; [|split; [|split]].
  1,2: (split; [intros [msg H]|intros H]);
    destruct value as [ | b | z | s | bs | u0 | cl re ats ];
    cbn [isinstance_str get_internal] in *; try discriminate; try reflexivity;
    try (eexists; reflexivity);
    destruct (assoc "internal" ats); discriminate.
  1,2: intros e S H;
    destruct value as [ | b | z | s | bs | u0 | cl re ats ];
    cbn [isinstance_str get_internal] in *; try discriminate;
    try (now injection H as <-);
    destruct (assoc "internal" ats); [discriminate|now injection H as <-].
Qed.

End IdentityExtras.

(** ** Distances *)

Section DictFacts.

Lemma dict_get_set_same k v d : dict_get (dict_set k v d) k = Some v.
Proof.
  unfold dict_get. induction d as [|[k' v'] d IH]; cbn [dict_set assoc].
  - now rewrite String.eqb_refl.
  - destruct (String.eqb_spec k k') as [->|N]; cbn [assoc].
    + now rewrite String.eqb_refl.
    + apply String.eqb_neq in N. now rewrite N.
Qed.

Lemma dict_get_set_other k k' v d : k' <> k -> dict_get (dict_set k v d) k' = dict_get d k'.
Proof.
  intros N. unfold dict_get. induction d as [|[k0 v0] d IH]; cbn [dict_set assoc].
  - apply String.eqb_neq in N. now rewrite N.
  - destruct (String.eqb_spec k k0) as [->|N0]; cbn [assoc].
    + apply String.eqb_neq in N. now rewrite N.
    + now rewrite IH.
Qed.

Lemma for_each_Forall2 {A B : Type} (f : A -> outcome B) (l : list A) (bs : list B) :
  for_each f l = Done bs -> Forall2 (fun a b => f a = Done b) l bs.
Proof.
  revert bs. induction l as [|a l IH]; intros bs H; cbn [for_each] in H.
  - injection H as <-. constructor.
  - destruct (f a) as [b|] eqn:E; [|discriminate].
    destruct (for_each f l) as [bs'|]; [|discriminate].
    injection H as <-. constructor; [exact E|now apply IH].
Qed.

End DictFacts.

Section DistanceFacts.

Variable to_dict : distances.Distance -> pydict.
Variable onupdate : pydict -> pydict.
Variable integrity_error : list distances.Distance -> option string.

Let Session := distances.Session.
Let rows := distance.rows distances.Distance.

Lemma given_spec x :
  given x = match x with Some s => negb (String.eqb s "") | None => false end.
Proof using. destruct x as [[|c s]|]; reflexivity. Qed.

Lemma filter_ext_eq {A} (p q : A -> bool) l :
  (forall a, p a = q a) -> filter p l = filter q l.
Proof using. intros E. induction l as [|a l IH]; cbn; [reflexivity|]. now rewrite E, IH. Qed.

(** X13.  [get_distances] reads the rows that match every identifier given; an
    identifier that is [None] or the empty string selects on nothing, so
    with both absent or empty every row is read. *)
Theorem get_distances_selects (src dest : option string) (session : Session) :
  distances.get_distances to_dict src dest session
  = for_each (distances.with_ranking to_dict) (filter (selected src dest) (rows session)).
Proof using to_dict.
  unfold distances.get_distances, distance.execute_all. f_equal.
  apply filter_ext_eq. intros row. unfold selected.
  destruct src as [s|], dest as [d|]; rewrite ?given_spec;
    try destruct (String.eqb s ""); try destruct (String.eqb d "");
    cbn; unfold distances.src_is, distances.dest_is;
    rewrite ?andb_true_r; reflexivity.
Qed.


(** X14.  Each dictionary [get_distances] returns is the [to_dict] of a
    selected row, in order, with one more key, [ranking], holding what
    [distance] holds. *)
Theorem get_distances_ranking (src dest : option string) (session : Session)
    (ds : list pydict) :
  distances.get_distances to_dict src dest session = Done ds ->
  Forall2 (fun row d =>
             (exists v, dict_get (to_dict row) "distance" = Some v /\
                        dict_get d "distance" = Some v /\
                        dict_get d "ranking" = Some v) /\
             (forall k, k <> "ranking" -> dict_get d k = dict_get (to_dict row) k))
          (filter (selected src dest) (rows session)) ds.
Proof using to_dict.
  rewrite get_distances_selects. intros H. apply for_each_Forall2 in H.
  revert H. apply Forall2_impl. intros row d E.
  unfold distances.with_ranking in E.
  destruct (dict_get (to_dict row) "distance") as [v|] eqn:G; [|discriminate].
  injection E as <-. split.
  - exists v. split; [reflexivity|]. split.
    + rewrite dict_get_set_other by discriminate. exact G.
    + apply dict_get_set_same.
  - intros k N. now apply dict_get_set_other.
Qed.

(** X16.  Without both identifiers (one is [None] or empty) [delete_distances]
    and [update_distances] return at once: the table is as it was and the
    database is not consulted. *)
Theorem writes_need_both_ids (src dest : option string) (v : pyvalue)
    (session : Session) :
  given src && given dest = false ->
  distances.delete_distances integrity_error src dest session = Done session /\
  distances.update_distances onupdate integrity_error src dest v session = Done session.
Proof using onupdate integrity_error.
  intros G. unfold distances.delete_distances, distances.update_distances.
  destruct src as [s|], dest as [d|]; try (split; reflexivity).
  destruct (given (Some s)), (given (Some d)); try discriminate G; split; reflexivity.
Qed.

Lemma given_Some s : s <> "" -> given (Some s) = true.
Proof using. intros N. rewrite given_spec. apply String.eqb_neq in N. now rewrite N. Qed.

Lemma delete_rows (s d : string) (session session' : Session) :
  s <> "" -> d <> "" ->
  distances.delete_distances integrity_error (Some s) (Some d) session = Done session' ->
  rows session' = filter (fun row => negb (distances.both s d row)) (rows session) /\
  integrity_error (rows session') = None.
Proof using integrity_error.
  intros Ns Nd. unfold distances.delete_distances, distances.execute_write.
  rewrite (given_Some s Ns), (given_Some d Nd). cbn [negb orb].
  destruct (integrity_error _) eqn:E; [discriminate|].
  intros H. injection H as <-. now split.
Qed.

Lemma both_spec s d row :
  distances.both s d row = true <->
  distances.src_rse_id row = s /\ distances.dest_rse_id row = d.
Proof using.
  unfold distances.both, distances.src_is, distances.dest_is.
  rewrite andb_true_iff, !String.eqb_eq. reflexivity.
Qed.

Lemma selected_both s d row : s <> "" -> d <> "" ->
  selected (Some s) (Some d) row = distances.both s d row.
Proof using.
  intros Ns Nd. unfold selected. apply String.eqb_neq in Ns, Nd. now rewrite Ns, Nd.
Qed.

(** X17.  A delete that goes through removes the rows of that pair and no
    other; the pair then reads as empty, and deleting it again changes
    nothing. *)
Theorem delete_distances_effect (s d : string) (session session' : Session) :
  s <> "" -> d <> "" ->
  distances.delete_distances integrity_error (Some s) (Some d) session = Done session' ->
  (forall row, In row (rows session') <->
               In row (rows session) /\
               ~ (distances.src_rse_id row = s /\ distances.dest_rse_id row = d)) /\
  distances.get_distances to_dict (Some s) (Some d) session' = Done [] /\
  distances.delete_distances integrity_error (Some s) (Some d) session' = Done session'.
Proof using to_dict integrity_error.
  intros Ns Nd H. destruct (delete_rows s d session session' Ns Nd H) as [R I].
  split; [|split].
  - intros row. rewrite R, filter_In, negb_true_iff.
    split; intros [J B]; (split; [exact J|]).
    + intros K. apply both_spec in K. congruence.
    + destruct (distances.both s d row) eqn:K; [|reflexivity].
      exfalso. apply B. now apply both_spec.
  - rewrite get_distances_selects.
    replace (filter (selected (Some s) (Some d)) (rows session')) with (@nil distances.Distance);
      [reflexivity|].
    symmetry. rewrite R. clear - Ns Nd.
    induction (rows session) as [|row l IH]; [reflexivity|].
    cbn [filter]. destruct (distances.both s d row) eqn:B; cbn [negb]; [exact IH|].
    cbn [filter]. rewrite (selected_both s d row Ns Nd), B. exact IH.
  - unfold distances.delete_distances, distances.execute_write.
    rewrite (given_Some s Ns), (given_Some d Nd). cbn [negb orb].
    fold rows. 
    replace (filter (fun row => negb (distances.both s d row)) (rows session'))
      with (rows session').
    + rewrite I. now destruct session'.
    + rewrite R. clear. induction (rows session) as [|row l IH]; [reflexivity|].
      cbn [filter]. destruct (distances.both s d row) eqn:B; cbn [negb]; [exact IH|].
      cbn [filter]. rewrite B. cbn [negb]. now rewrite <- IH.
Qed.


Lemma update_rows (s d : string) (v : pyvalue) (session session' : Session) :
  s <> "" -> d <> "" ->
  distances.update_distances onupdate integrity_error (Some s) (Some d) v session
    = Done session' ->
  rows session'
  = map (fun row => if distances.both s d row
                    then distances.set_distance onupdate v row else row)
        (rows session).
Proof using onupdate integrity_error.
  intros Ns Nd. unfold distances.update_distances, distances.execute_write.
  rewrite (given_Some s Ns), (given_Some d Nd). cbn [negb orb].
  destruct (integrity_error _); [discriminate|].
  intros H. now injection H as <-.
Qed.

(** X18.  An update that goes through keeps every row in place with its pair
    of identifiers; the rows of the given pair get the new distance, the
    others are left as they were. *)
Theorem update_distances_effect (s d : string) (v : pyvalue)
    (session session' : Session) :
  s <> "" -> d <> "" ->
  distances.update_distances onupdate integrity_error (Some s) (Some d) v session
    = Done session' ->
  Forall2 (fun row row' =>
             distances.src_rse_id row' = distances.src_rse_id row /\
             distances.dest_rse_id row' = distances.dest_rse_id row /\
             (distances.src_rse_id row = s /\ distances.dest_rse_id row = d ->
              distances.distance row' = v) /\
             (~ (distances.src_rse_id row = s /\ distances.dest_rse_id row = d) ->
              row' = row))
          (rows session) (rows session').
Proof using onupdate integrity_error.
  intros Ns Nd H. rewrite (update_rows s d v session session' Ns Nd H).
  induction (rows session) as [|row l IH]; cbn [map]; constructor; [|exact IH].
  destruct (distances.both s d row) eqn:B.
  - cbn. repeat split; try reflexivity. intros N. apply both_spec in B. contradiction.
  - repeat split; try reflexivity. intros K. apply both_spec in K. congruence.
Qed.

(** X19.  Updating a pair and then deleting it leaves what deleting it at once
    would have left. *)
Theorem update_then_delete (s d : string) (v : pyvalue) (session session' : Session) :
  s <> "" -> d <> "" ->
  distances.update_distances onupdate integrity_error (Some s) (Some d) v session
    = Done session' ->
  distances.delete_distances integrity_error (Some s) (Some d) session'
  = distances.delete_distances integrity_error (Some s) (Some d) session.
Proof using onupdate integrity_error.
  intros Ns Nd H. unfold distances.delete_distances.
  rewrite (given_Some s Ns), (given_Some d Nd). cbn [negb orb]. f_equal.
  fold rows. rewrite (update_rows s d v session session' Ns Nd H).
  induction (rows session) as [|row l IH]; [reflexivity|].
  cbn [map filter]. destruct (distances.both s d row) eqn:B.
  - replace (distances.both s d (distances.set_distance onupdate v row)) with true
      by (symmetry; exact B).
    cbn [negb]. exact IH.
  - rewrite B. cbn [negb]. now rewrite IH.
Qed.

End DistanceFacts.

(** ** Virtual organisations *)

Section VoFacts.

Variable vo_map : string -> option string.

Lemma in_class_vo_chars c : vos.in_class c = Py.mem c vo_chars.
Proof using. destruct c as [[] [] [] [] [] [] [] []]; reflexivity. Qed.

Lemma newline_not_in_class : vos.in_class vos.newline = false.
Proof using. reflexivity. Qed.

Lemma class_star_end_no_newline s :
  Py.mem vos.newline s = false -> vos.class_star_end s = all_in vo_chars s.
Proof using.
  induction s as [|c s IH]; [reflexivity|].
  cbn [Py.mem vos.class_star_end all_in]. intros H.
  apply orb_false_iff in H as [Hc Hs].
  rewrite Ascii.eqb_sym in Hc. rewrite Hc, (IH Hs), in_class_vo_chars.
  now rewrite orb_false_r.
Qed.

Lemma all_in_no_newline s : all_in vo_chars s = true -> Py.mem vos.newline s = false.
Proof using. intros A. now apply mem_all_in with vo_chars. Qed.

Lemma LONG_VO_RE_match_valid s :
  vos.LONG_VO_RE_match s && negb (Py.mem vos.newline s) = valid_vo_name s.
Proof using.
  unfold valid_vo_name. destruct s as [|c s]; [reflexivity|].
  cbn [vos.LONG_VO_RE_match String.eqb negb andb all_in].
  rewrite in_class_vo_chars.
  destruct (Py.mem vos.newline (String c s)) eqn:M.
  - rewrite andb_false_r. symmetry. apply not_true_is_false. intros A.
    change (all_in vo_chars (String c s) = true) in A.
    apply all_in_no_newline in A. congruence.
  - rewrite andb_true_r. cbn [Py.mem] in M. apply orb_false_iff in M as [_ Ms].
    now rewrite (class_star_end_no_newline s Ms).
Qed.

(** X20.  [map_vo] accepts exactly the non-empty names made of letters, digits,
    dots and dashes, and returns the configured short name, or the name
    itself when none is configured; any other name raises
    [RucioException]. *)
Theorem map_vo_spec (vo_ : string) :
  vos.map_vo vo_map vo_
  = (if valid_vo_name vo_
     then Done (match vo_map vo_ with Some short => short | None => vo_ end)
     else Fail (exception.RucioException "Invalid characters in VO name.")).
Proof using vo_map.
  unfold vos.map_vo. rewrite <- LONG_VO_RE_match_valid.
  destruct (vos.LONG_VO_RE_match vo_), (Py.mem vos.newline vo_); reflexivity.
Qed.

(** X21.  The pattern alone accepts a valid name followed by one newline; the
    extra test for a newline makes [map_vo] refuse it. *)
Theorem LONG_VO_RE_trailing_newline (s : string) :
  valid_vo_name s = true ->
  vos.LONG_VO_RE_match (s ++ String vos.newline "") = true /\
  vos.map_vo vo_map (s ++ String vos.newline "")
  = Fail (exception.RucioException "Invalid characters in VO name.").
Proof using vo_map.
  unfold valid_vo_name. intros V. apply andb_true_iff in V as [N A].
  assert (M : vos.LONG_VO_RE_match (s ++ String vos.newline "") = true).
  { destruct s as [|c s]; [discriminate N|].
    cbn [append vos.LONG_VO_RE_match all_in] in *.
    apply andb_true_iff in A as [Ac As]. rewrite in_class_vo_chars, Ac. cbn [andb].
    clear - As. induction s as [|c s IH]; [reflexivity|].
    cbn [append vos.class_star_end all_in] in *. apply andb_true_iff in As as [Ac As].
    now rewrite in_class_vo_chars, Ac, (IH As). }
  split; [exact M|]. unfold vos.map_vo. rewrite M. cbn [negb orb].
  replace (Py.mem vos.newline (s ++ String vos.newline "")) with true; [reflexivity|].
  symmetry. rewrite mem_append. cbn. now rewrite orb_true_r.
Qed.


End VoFacts.

Lemma LONG_VO_RE_trailing_newline_witness :
  vos.LONG_VO_RE_match ("atlas" ++ String vos.newline "") = true /\
  vos.map_vo (fun _ => None) ("atlas" ++ String vos.newline "")
  = Fail (exception.RucioException "Invalid characters in VO name.").
Proof. exact (LONG_VO_RE_trailing_newline (fun _ => None) "atlas" eq_refl). Defined.

Section VoStoreFacts.

Variable multi_vo : bool.
Variable onupdate : pyvalue -> pyvalue.

Lemma assoc_absent {A : Type} k (l : list (string * A)) :
  ~ In k (map fst l) -> assoc k l = None.
Proof using.
  induction l as [|[k' a] l IH]; cbn [map fst In assoc]; [reflexivity|].
  intros N. destruct (String.eqb_spec k k') as [->|_]; [exfalso; auto|].
  apply IH. auto.
Qed.

Lemma select_params_get parameters : forall param k,
  NoDup (map fst parameters) ->
  dict_get (vos.select_params parameters param) k
  = (if vos.updatable k
     then match dict_get parameters k with
          | Some v => Some v
          | None => dict_get param k
          end
     else dict_get param k).
Proof using.
  induction parameters as [|[key value] rest IH]; intros param k D.
  - cbn. now destruct (vos.updatable k).
  - cbn [map fst] in D. apply NoDup_cons_iff in D as [Nk D].
    cbn [vos.select_params]. unfold dict_get at 2. cbn [assoc].
    destruct (String.eqb_spec k key) as [->|N].
    + destruct (vos.updatable key) eqn:U.
      * rewrite (IH _ _ D), U. unfold dict_get at 1.
        rewrite (assoc_absent key rest Nk). apply dict_get_set_same.
      * rewrite (IH _ _ D), U. reflexivity.
    + destruct (vos.updatable key) eqn:U.
      * rewrite (IH _ _ D). fold (dict_get rest k).
        destruct (vos.updatable k); [|now apply dict_get_set_other].
        destruct (dict_get rest k); [reflexivity|now apply dict_get_set_other].
      * rewrite (IH _ _ D). reflexivity.
Qed.

Lemma select_params_filter parameters : forall param,
  vos.select_params parameters param
  = vos.select_params (filter (fun kv => vos.updatable (fst kv)) parameters) param.
Proof using.
  induction parameters as [|[key value] rest IH]; intros param; [reflexivity|].
  cbn [vos.select_params filter fst]. destruct (vos.updatable key) eqn:U.
  - cbn [vos.select_params]. rewrite U. apply IH.
  - apply IH.
Qed.

(** X22.  Only [email] and [description] are looked at: any other key of
    [parameters] (the VO tag, the time stamps, a misspelt name) is
    dropped without an error. *)
Theorem update_vo_ignores_other_keys (vo_ : string) (parameters : pydict)
    (session : vos.Session) :
  vos.update_vo multi_vo onupdate vo_ parameters session
  = vos.update_vo multi_vo onupdate vo_
      (filter (fun kv => vos.updatable (fst kv)) parameters) session.
Proof using multi_vo onupdate. unfold vos.update_vo. now rewrite <- select_params_filter. Qed.

(** X23.  [vo_exists] is true exactly when some row of the table has the VO. *)
Theorem vo_exists_spec (vo_ : string) (session : vos.Session) :
  vos.vo_exists vo_ session = true <->
  exists row, In row (vos.rows session) /\ vos.vo row = vo_.
Proof using.
  unfold vos.vo_exists, vos.select_vo. split.
  - destruct (filter _ _) as [|row l] eqn:F; [discriminate|]. intros _.
    assert (I : In row (filter (fun r => String.eqb (vos.vo r) vo_) (vos.rows session)))
      by (rewrite F; now left).
    apply filter_In in I as [I E]. exists row. split; [exact I|now apply String.eqb_eq].
  - intros (row & I & E).
    assert (J : In row (filter (fun r => String.eqb (vos.vo r) vo_) (vos.rows session)))
      by (apply filter_In; split; [exact I|now apply String.eqb_eq]).
    destruct (filter _ _); [contradiction|reflexivity].
Qed.

(** X24.  In multi-VO mode [update_vo] raises [VONotFound] exactly when no row
    has the VO; in single-VO mode it and [list_vos] raise
    [UnsupportedOperation] whatever the table holds. *)
Theorem update_vo_not_found (vo_ : string) (parameters : pydict) (session : vos.Session) :
  (multi_vo = true ->
   (vos.update_vo multi_vo onupdate vo_ parameters session
    = Fail (exception.VONotFound ("VO " ++ vo_ ++ " not found"))
    <-> vos.vo_exists vo_ session = false)) /\
  (multi_vo = false ->
   vos.update_vo multi_vo onupdate vo_ parameters session = Fail vos.single_vo_mode /\
   vos.list_vos multi_vo session = Fail vos.single_vo_mode).
Proof using multi_vo onupdate.
  unfold vos.update_vo, vos.list_vos, vos.vo_exists. split; intros ->; cbn [negb].
  - destruct (vos.select_vo vo_ session) as [|r [|r' l]]; split; intros H;
      try reflexivity; discriminate H.
  - split; reflexivity.
Qed.

(** X25.  An update that goes through keeps every row in place with its VO tag
    and creation stamp; rows of other VOs are untouched; the row of the
    VO takes the [email] and [description] given and keeps the ones not
    given. *)
Theorem update_vo_effect (vo_ : string) (parameters : pydict)
    (session session' : vos.Session) :
  NoDup (map fst parameters) ->
  vos.update_vo multi_vo onupdate vo_ parameters session = Done session' ->
  Forall2 (fun row row' =>
             vos.vo row' = vos.vo row /\
             vos.created_at row' = vos.created_at row /\
             (vos.vo row <> vo_ -> row' = row) /\
             (vos.vo row = vo_ ->
              vos.email row' = match dict_get parameters "email" with
                               | Some v => v
                               | None => vos.email row
                               end /\
              vos.description row' = match dict_get parameters "description" with
                                     | Some v => v
                                     | None => vos.description row
                                     end))
          (vos.rows session) (vos.rows session').
Proof using multi_vo onupdate.
  intros D. unfold vos.update_vo. destruct (negb multi_vo); [discriminate|].
  destruct (vos.select_vo vo_ session) as [|r [|r' l]]; try discriminate.
  intros H. injection H as <-. cbn [vos.rows].
  induction (vos.rows session) as [|row rest IH]; cbn [map]; constructor; [|exact IH].
  destruct (String.eqb_spec (vos.vo row) vo_) as [E|N].
  - cbn [vos.set_values vos.vo vos.created_at vos.email vos.description].
    rewrite !(select_params_get parameters [] _ D). cbn [vos.updatable String.eqb].
    split; [reflexivity|]. split; [reflexivity|]. split; [intros N; contradiction|].
    intros _. change (vos.updatable "email") with true.
    change (vos.updatable "description") with true. cbn iota.
    split.
    + now destruct (dict_get parameters "email").
    + now destruct (dict_get parameters "description").
  - split; [reflexivity|]. split; [reflexivity|]. split; [reflexivity|].
    intros E. contradiction.
Qed.



End VoStoreFacts.

(** ** Examples *)

Lemma GUID_bind_fits_column_witness :
  exists bs,
    GUID.process_bind_param (PyStr "550E8400-E29B-41D4-A716-446655440000") oracle
      = Ok (PyBytes bs) /\
    Z.of_nat (List.length bs) = 16 /\
    Py.from_bytes bs = 113059749145936325402354257176981405696.
Proof.
  apply (GUID_bind_fits_column "550E8400-E29B-41D4-A716-446655440000"
           113059749145936325402354257176981405696 oracle).
  vm_compute. reflexivity.
Defined.

Lemma GUID_bytes_stored_roundtrip_witness :
  let bs := [x55; x0e; x84; x00; xe2; x9b; x41; xd4; xa7; x16; x44; x66; x55; x44; x00; x00] in
  roundtrip GUID.process_result_value GUID.process_bind_param (PyBytes bs) mysql
  = Ok (PyBytes bs).
Proof.
  intros bs. apply (GUID_bytes_stored_roundtrip bs mysql); [right|]; reflexivity.
Defined.

Lemma GUID_roundtrip_object_witness :
  roundtrip GUID.process_bind_param GUID.process_result_value
    (PyUUID {| uuid.int := 255 |}) postgresql
  = Ok (PyStr (canonical_lowercase_hex 255)).
Proof. apply (GUID_roundtrip_object 255 postgresql); [lia|discriminate|discriminate]. Defined.

Lemma get_distances_ranking_witness :
  exists ds,
    distances.get_distances sample_to_dict (Some "a") None sample_distances = Done ds /\
    Forall2 (fun row d =>
               (exists v, dict_get (sample_to_dict row) "distance" = Some v /\
                          dict_get d "distance" = Some v /\
                          dict_get d "ranking" = Some v) /\
               (forall k, k <> "ranking" -> dict_get d k = dict_get (sample_to_dict row) k))
            [sample_row "a" "b" 1; sample_row "a" "c" 2] ds.
Proof.
  eexists. split; [reflexivity|].
  apply (get_distances_ranking sample_to_dict (Some "a") None sample_distances).
  reflexivity.
Defined.

Lemma writes_need_both_ids_witness :
  distances.delete_distances accept_all (Some "a") (Some "") sample_distances
    = Done sample_distances /\
  distances.update_distances (fun c => c) accept_all (Some "a") (Some "") (PyInt 9)
    sample_distances = Done sample_distances.
Proof.
  apply (writes_need_both_ids (fun c => c) accept_all (Some "a") (Some "") (PyInt 9)).
  reflexivity.
Defined.

Lemma delete_distances_effect_witness :
  let after := {| distance.rows := [sample_row "a" "b" 1; sample_row "b" "c" 3] |} in
  (forall row, In row (distance.rows distances.Distance after) <->
               In row (distance.rows distances.Distance sample_distances) /\
               ~ (distances.src_rse_id row = "a" /\ distances.dest_rse_id row = "c")) /\
  distances.get_distances sample_to_dict (Some "a") (Some "c") after = Done [] /\
  distances.delete_distances accept_all (Some "a") (Some "c") after = Done after.
Proof.
  intros after.
  apply (delete_distances_effect sample_to_dict accept_all "a" "c" sample_distances after);
    [discriminate|discriminate|reflexivity].
Defined.

Lemma update_distances_effect_witness :
  let after := {| distance.rows :=
                    [sample_row "a" "b" 1;
                     distances.set_distance (fun c => c) (PyInt 9) (sample_row "a" "c" 2);
                     sample_row "b" "c" 3] |} in
  Forall2 (fun row row' =>
             distances.src_rse_id row' = distances.src_rse_id row /\
             distances.dest_rse_id row' = distances.dest_rse_id row /\
             (distances.src_rse_id row = "a" /\ distances.dest_rse_id row = "c" ->
              distances.distance row' = PyInt 9) /\
             (~ (distances.src_rse_id row = "a" /\ distances.dest_rse_id row = "c") ->
              row' = row))
          (distance.rows distances.Distance sample_distances)
          (distance.rows distances.Distance after).
Proof.
  intros after.
  apply (update_distances_effect (fun c => c) accept_all "a" "c" (PyInt 9)
           sample_distances after); [discriminate|discriminate|reflexivity].
Defined.

Lemma update_then_delete_witness :
  let after := {| distance.rows :=
                    [sample_row "a" "b" 1;
                     distances.set_distance (fun c => c) (PyInt 9) (sample_row "a" "c" 2);
                     sample_row "b" "c" 3] |} in
  distances.delete_distances accept_all (Some "a") (Some "c") after
  = distances.delete_distances accept_all (Some "a") (Some "c") sample_distances.
Proof.
  intros after.
  apply (update_then_delete (fun c => c) accept_all "a" "c" (PyInt 9)
           sample_distances after); [discriminate|discriminate|reflexivity].
Defined.


Lemma update_vo_effect_witness :
  let parameters := [("email", PyStr "new@abc"); ("vo", PyStr "xyz")] in
  let after := {| vos.rows := [sample_vo "def" "root@def"; sample_vo "abc" "new@abc"] |} in
  Forall2 (fun row row' =>
             vos.vo row' = vos.vo row /\
             vos.created_at row' = vos.created_at row /\
             (vos.vo row <> "abc" -> row' = row) /\
             (vos.vo row = "abc" ->
              vos.email row' = match dict_get parameters "email" with
                               | Some v => v
                               | None => vos.email row
                               end /\
              vos.description row' = match dict_get parameters "description" with
                                     | Some v => v
                                     | None => vos.description row
                                     end))
          (vos.rows sample_vos) (vos.rows after).
Proof.
  intros parameters after.
  apply (update_vo_effect true (fun t => t) "abc" parameters sample_vos after);
    [|reflexivity].
  repeat constructor; cbn; intuition discriminate.
Defined.
